(** * InfraCommand window placement: a shallow embedding of
    [window_utils.py] and of the placement schedulers of [infracommand.py].

  Python [int] is [Z]; Python [float] is the kernel's binary64 [float];
  window handles, process ids and session ids are [Z]; strings are
  [string]; the process-wide set of unmanageable handles is a [gset Z];
  Python exceptions are [None] in [option]. Win32 is an oracle: a record of
  functions keyed by window handle for the queries, and a function from the
  history of issued calls to the reply for the positioning calls. *)

From Stdlib Require Import ZArith Floats Ascii String.
From stdpp Require Import base gmap sets list strings.

Set Warnings "-inexact-float,-clear-no-such-hyp".

Local Open Scope Z_scope.

(** A rectangle is the 4-tuple [(x, y, w, h)] the source passes around; the
  work area is the 4-tuple [(L, T, R, B)]. *)
Definition Rect : Type := Z * Z * Z * Z.

(* ===================================================================== *)
(** ** Python numbers *)
(* ===================================================================== *)

Module Py.

(** [float(n)] for a Python int: correctly rounded to binary64, and
    [OverflowError] ([None]) when [n] is too large. *)
Definition float_of_int (n : Z) : option float :=
  let f := SF2Prim (binary_normalize prec emax n 0 false) in
  if PrimFloat.is_infinity f then None else Some f.

(** [int(f)]: truncation towards zero; [ValueError] on NaN and
    [OverflowError] on an infinity. *)
Definition int_of_float (f : float) : option Z :=
  match Prim2SF f with
  | S754_zero _ => Some 0
  | S754_finite s m e =>
      let mag := if 0 <=? e then Z.shiftl (Z.pos m) e
                 else Z.shiftr (Z.pos m) (- e) in
      Some (if s then - mag else mag)
  | S754_infinity _ | S754_nan => None
  end.

(** [int(r * n)] and [int(n * r)] for a float [r] and an int [n]. *)
Definition int_float_times_int (r : float) (n : Z) : option Z :=
  f ← float_of_int n; int_of_float (PrimFloat.mul r f).

Definition int_int_times_float (n : Z) (r : float) : option Z :=
  f ← float_of_int n; int_of_float (PrimFloat.mul f r).

(** [max(seq, key=key)]: the first element whose key is maximal;
    [ValueError] on an empty sequence. *)
Fixpoint max_from {A} (key : A → Z) (best : A) (l : list A) : A :=
  match l with
  | [] => best
  | x :: l' => if key best <? key x then max_from key x l'
               else max_from key best l'
  end.

Definition max_key {A} (key : A → Z) (l : list A) : option A :=
  match l with
  | [] => None
  | x :: l' => Some (max_from key x l')
  end.

(** [str.lower()] on the ASCII range. *)
Definition lower_ascii (c : ascii) : ascii :=
  let n := nat_of_ascii c in
  if (65 <=? n)%nat && (n <=? 90)%nat then ascii_of_nat (n + 32) else c.

Fixpoint lower (s : string) : string :=
  match s with
  | EmptyString => EmptyString
  | String c s' => String (lower_ascii c) (lower s')
  end.

(** [needle in hay] for strings. *)
Fixpoint starts_with (p s : string) : bool :=
  match p, s with
  | EmptyString, _ => true
  | String a p', String b s' => if decide (a = b) then starts_with p' s' else false
  | String _ _, EmptyString => false
  end.

Fixpoint contains (needle hay : string) : bool :=
  starts_with needle hay ||
    match hay with
    | EmptyString => false
    | String _ hay' => contains needle hay'
    end.

End Py.

(* ===================================================================== *)
(** ** Monitor / geometry ([window_utils.py], lines 37-106) *)
(* ===================================================================== *)

Module Geometry.

Definition MONITORINFOF_PRIMARY : Z := 1.

(** What [win32api.GetMonitorInfo] returns for one monitor of
    [win32api.EnumDisplayMonitors()]: the ['Flags'] entry (read with
    [inf.get('Flags', 0)]) and the ['Work'] rectangle. *)
Record MonitorInfo := {
  Flags : option Z;
  Work : Rect
}.

Fixpoint primary_workarea_physical (mons : list MonitorInfo) : Rect :=
  match mons with
  | [] => (0, 0, 1920, 1080)
  | inf :: mons' =>
      if decide (default 0 (Flags inf) = MONITORINFOF_PRIMARY) then Work inf
      else primary_workarea_physical mons'
  end.

(** Lines 61-70: the work area shrunk by the edge margin, as
    [(L, T, W, H)] after the second [W, H = R - L, B - T]. *)
Definition shrunk_workarea (mons : list MonitorInfo) (edge_margin_ratio : float)
  : option Rect :=
  let '(L, T, R, B) := primary_workarea_physical mons in
  let W := R - L in
  let H := B - T in
  m ← Py.int_float_times_int edge_margin_ratio (Z.min W H);
  let outer := Z.max 8 m in
  let L := L + outer in
  let T := T + outer in
  let R := R - outer in
  let B := B - outer in
  Some (L, T, R - L, B - T).

(** Lines 73-81: the dictionary of the five labels. *)
Definition quadrant_map (area : Rect) : gmap string Rect :=
  let '(L, T, W, H) := area in
  let half_w := W / 2 in
  let half_h := H / 2 in
  <["TL" := (L, T, half_w, half_h)]>
 (<["TR" := (L + half_w, T, half_w, half_h)]>
 (<["BL" := (L, T + half_h, half_w, half_h)]>
 (<["BR" := (L + half_w, T + half_h, half_w, half_h)]>
 (<["FULL" := (L, T, W, H)]> ∅)))).

(** Line 83: [quadrant_map.get(quad, quadrant_map["FULL"])]. *)
Definition quadrant_cell (area : Rect) (quad : string) : Rect :=
  let qm := quadrant_map area in
  default (qm !!! "FULL") (qm !! quad).

(** Lines 85-91: the fill ratio applied to the selected cell. *)
Definition apply_fill (fill_ratio : float) (cell : Rect) : option Rect :=
  let '(x, y, w, h) := cell in
  target_w ← Py.int_int_times_float w fill_ratio;
  target_h ← Py.int_int_times_float h fill_ratio;
  Some (x + (w - target_w) / 2, y + (h - target_h) / 2, target_w, target_h).

Definition get_quadrant_physical (mons : list MonitorInfo) (quad : string)
    (fill_ratio edge_margin_ratio : float) : option Rect :=
  area ← shrunk_workarea mons edge_margin_ratio;
  apply_fill fill_ratio (quadrant_cell area quad).

Definition clamp_rect_to_primary (mons : list MonitorInfo) (x y w h : Z) : Rect :=
  let '(L, T, R, B) := primary_workarea_physical mons in
  let x := if x <? L then L else x in
  let y := if y <? T then T else y in
  let x := if R <? x + w then R - w else x in
  let y := if B <? y + h then B - h else y in
  (x, y, w, h).

(** The integer points a rectangle covers: [x <= px < x + w] and
    [y <= py < y + h]. *)
Definition covers (r : Rect) (px py : Z) : Prop :=
  let '(x, y, w, h) := r in x <= px < x + w ∧ y <= py < y + h.

(** The fill step does not enlarge a length [n]: the size it computes, when
    it computes one, is at most [max(0, n)]. This is what a fill ratio in the
    documented range 0.0-1.0 gives. *)
Definition fill_shrinks (fill_ratio : float) (n : Z) : Prop :=
  ∀ target, Py.int_int_times_float n fill_ratio = Some target → target ≤ Z.max 0 n.

Definition four_quadrants : list string := ["TL"; "TR"; "BL"; "BR"].
Definition known_labels : list string := ["TL"; "TR"; "BL"; "BR"; "FULL"].

End Geometry.

Import Geometry.

(* ===================================================================== *)
(** ** The desktop as the Win32 queries see it *)
(* ===================================================================== *)

Module Win32.

(** One snapshot of the desktop. A query that raises is [None].
    [GetWindowThreadProcessId] is the process id of the pair it returns;
    [GetWindowRect] is [(l, t, r, b)]. [get_image_name_basename] and
    [_get_process_session_id] ([window_utils.py], lines 109-139) catch every
    exception of the calls they wrap, so they are total functions of the
    process id. *)
Record Desktop := {
  EnumWindows : list Z;
  IsWindowVisible : Z → option bool;
  GetParent : Z → option Z;
  GetClassName : Z → option string;
  GetWindowThreadProcessId : Z → option Z;
  GetWindowText : Z → option string;
  GetWindowRect : Z → option Rect;
  IsIconic : Z → option bool;
  IsWindow : Z → option bool;
  get_image_name_basename : Z → string;
  _get_process_session_id : Z → Z;
  EnumDisplayMonitors : list MonitorInfo
}.

(** win32con constants. *)
Definition SWP_NOZORDER : Z := 0x0004.
Definition SWP_NOACTIVATE : Z := 0x0010.
Definition SWP_SHOWWINDOW : Z := 0x0040.
Definition SW_RESTORE : Z := 9.
Definition HWND_TOP : Z := 0.

(** The calls that act on a window. [user32_SetWindowPos] is the ctypes
    binding [_SetWindowPos] of [window_utils.py] (a BOOL, and the last error
    on failure); the others are the pywin32 wrappers, which return [None] and
    raise on failure. [insert_after] is [None] for Python's [None]. The
    arguments are the Python integers of the call, before ctypes narrows them
    to C [int]. *)
Inductive PlatformCall :=
| user32_SetWindowPos (hwnd insert_after x y w h flags : Z)
| gui_SetWindowPos (hwnd : Z) (insert_after : option Z) (x y w h flags : Z)
| gui_MoveWindow (hwnd x y w h : Z) (repaint : bool)
| gui_ShowWindow (hwnd cmd : Z)
| gui_SetForegroundWindow (hwnd : Z).

Inductive Reply :=
| Done
| Failed (err : Z).

(** The platform answers a call knowing every call issued before it. *)
Definition Platform : Type := list PlatformCall → PlatformCall → Reply.

End Win32.

Import Win32.

(* ===================================================================== *)
(** ** Window matcher ([window_utils.py], lines 199-326) *)
(* ===================================================================== *)

Module Matcher.

(** The keyword arguments of [find_windows_by_criteria]. For the three list
    arguments [None] and [[]] are the same to the function ([x or []],
    [if x:], [not x]), so [None] is the empty list here. *)
Record Criteria := {
  pid : option Z;
  class_names : list string;
  title_contains : list string;
  image_names : list string;
  session_id : option Z
}.

Definition no_criteria : Criteria :=
  {| pid := None; class_names := []; title_contains := [];
     image_names := []; session_id := None |}.

Definition APP_FRAME : string := "ApplicationFrameWindow".

(** The verdict of one filter: [Some true] lets the window through,
    [Some false] is [return True] (skip the window), [None] an exception that
    reaches the callback's [except Exception: pass]. *)
Definition and_then (a b : option bool) : option bool :=
  match a with
  | Some true => b
  | _ => a
  end.

(** Lines 263-266. *)
Definition check_toplevel (d : Desktop) (hwnd : Z) : option bool :=
  v ← IsWindowVisible d hwnd;
  if negb v then Some false
  else p ← GetParent d hwnd;
       Some (bool_decide (p = 0)).

(** Lines 269-274. *)
Definition check_class (c : Criteria) (d : Desktop) (hwnd : Z) : option bool :=
  match class_names c with
  | [] => Some true
  | _ =>
      window_class ← GetClassName d hwnd;
      if bool_decide (window_class ∈ class_names c) then Some true
      else Some (bool_decide (window_class = APP_FRAME))
  end.

(** Lines 277-280. *)
Definition check_pid (c : Criteria) (d : Desktop) (hwnd : Z) : option bool :=
  match pid c with
  | None => Some true
  | Some p =>
      window_pid ← GetWindowThreadProcessId d hwnd;
      Some (bool_decide (window_pid = p))
  end.

(** Line 258. *)
Definition title_searches (c : Criteria) : list string :=
  map Py.lower (filter (λ s, s ≠ EmptyString) (title_contains c)).

(** Lines 283-288. *)
Definition check_title (c : Criteria) (d : Desktop) (hwnd : Z) : option bool :=
  match title_searches c with
  | [] => Some true
  | _ =>
      text ← GetWindowText d hwnd;
      let window_title := Py.lower text in
      if existsb (λ search, Py.contains search window_title) (title_searches c)
      then Some true
      else match class_names c with
           | [] => Some false
           | _ => window_class ← GetClassName d hwnd;
                  Some (bool_decide (window_class = APP_FRAME))
           end
  end.

(** Lines 259 and 291-298; the inner [try] turns an exception into a skip. *)
Definition check_image (c : Criteria) (d : Desktop) (hwnd : Z) : option bool :=
  match image_names c with
  | [] => Some true
  | _ =>
      match GetWindowThreadProcessId d hwnd with
      | None => Some false
      | Some window_pid =>
          Some (bool_decide (get_image_name_basename d window_pid
                               ∈ map Py.lower (image_names c)))
      end
  end.

(** Lines 301-308. *)
Definition check_session (c : Criteria) (d : Desktop) (hwnd : Z) : option bool :=
  match session_id c with
  | None => Some true
  | Some sid =>
      match GetWindowThreadProcessId d hwnd with
      | None => Some false
      | Some window_pid =>
          Some (bool_decide (_get_process_session_id d window_pid = sid))
      end
  end.

(** Lines 311-313. *)
Definition check_size (d : Desktop) (hwnd : Z) : option bool :=
  '(l, t, r, b) ← GetWindowRect d hwnd;
  Some (negb ((r - l <? 200) || (b - t <? 120))).

(** Everything the callback tests before the size: lines 262-308. *)
Definition filters_before_size (c : Criteria) (d : Desktop) (hwnd : Z) : option bool :=
  and_then (check_toplevel d hwnd)
 (and_then (check_class c d hwnd)
 (and_then (check_pid c d hwnd)
 (and_then (check_title c d hwnd)
 (and_then (check_image c d hwnd)
           (check_session c d hwnd))))).

(** [enum_callback]: [true] when the handle is appended. *)
Definition enum_callback (c : Criteria) (d : Desktop) (hwnd : Z) : bool :=
  bool_decide (and_then (filters_before_size c d hwnd) (check_size d hwnd) = Some true).

Definition find_windows_by_criteria (c : Criteria) (d : Desktop) : list Z :=
  List.filter (enum_callback c d) (EnumWindows d).

(** Lines 199-205. *)
Definition get_window_area (d : Desktop) (hwnd : Z) : Z :=
  match GetWindowRect d hwnd with
  | Some (l, t, r, b) => Z.max 0 (r - l) * Z.max 0 (b - t)
  | None => 0
  end.

(** The list comprehension of the snapshot pollers:
    [[h for h in current_windows if h not in before_windows]]. *)
Definition new_windows (before_windows current_windows : list Z) : list Z :=
  List.filter (λ h, negb (bool_decide (h ∈ before_windows))) current_windows.

End Matcher.

Import Matcher.

(* ===================================================================== *)
(** ** UAC-aware window movement ([window_utils.py], lines 141-196) *)
(* ===================================================================== *)

Module Mover.

Definition _SWP_FLAGS : Z := Z.lor 0x0004 0x0040.
Definition ERROR_ACCESS_DENIED : Z := 5.

(** The module-level set [_UNMANAGEABLE_HWND], and the calls issued to the
    platform so far, oldest first. *)
Record State := {
  _UNMANAGEABLE_HWND : gset Z;
  issued : list PlatformCall
}.

Definition initial : State := {| _UNMANAGEABLE_HWND := ∅; issued := [] |}.

(** Issue one call: the platform's reply, and the call recorded. *)
Definition issue (P : Platform) (c : PlatformCall) (s : State) : Reply * State :=
  (P (issued s) c,
   {| _UNMANAGEABLE_HWND := _UNMANAGEABLE_HWND s; issued := issued s ++ [c] |}).

Definition mark_unmanageable (hwnd : Z) (s : State) : State :=
  {| _UNMANAGEABLE_HWND := {[hwnd]} ∪ _UNMANAGEABLE_HWND s; issued := issued s |}.

Definition safe_set_window_pos_hwnd (P : Platform) (s : State) (hwnd x y w h : Z)
  : bool * State :=
  if decide (hwnd ∈ _UNMANAGEABLE_HWND s) then (false, s)
  else
    let '(ok, s) := issue P (user32_SetWindowPos hwnd 0 x y w h _SWP_FLAGS) s in
    match ok with
    | Done => (true, s)
    | Failed err =>
        if decide (err = ERROR_ACCESS_DENIED) then (false, mark_unmanageable hwnd s)
        else (false, s)
    end.

Definition move_window (P : Platform) (d : Desktop) (s : State) (hwnd x y w h : Z)
  : bool * State :=
  let s := match IsIconic d hwnd with
           | Some true => snd (issue P (gui_ShowWindow hwnd 9) s)
           | _ => s
           end in
  let '(x, y, w, h) := clamp_rect_to_primary (EnumDisplayMonitors d) x y w h in
  safe_set_window_pos_hwnd P s hwnd x y w h.

(** One [try:] block of pywin32 calls: issued in order, left at the first
    one that raises. *)
Fixpoint try_calls (P : Platform) (cs : list PlatformCall) (s : State) : bool * State :=
  match cs with
  | [] => (true, s)
  | c :: cs' =>
      let '(r, s) := issue P c s in
      match r with
      | Done => try_calls P cs' s
      | Failed _ => (false, s)
      end
  end.

(** [try: ...; return True / except: pass] blocks in sequence: stop at the
    first block that completes. *)
Fixpoint first_success (P : Platform) (methods : list (list PlatformCall)) (s : State)
  : bool * State :=
  match methods with
  | [] => (false, s)
  | m :: methods' =>
      let '(ok, s) := try_calls P m s in
      if ok then (true, s) else first_success P methods' s
  end.

(** How often the primary positioning call was issued for a handle. *)
Definition is_primary_call_for (hwnd : Z) (c : PlatformCall) : bool :=
  match c with
  | user32_SetWindowPos h _ _ _ _ _ _ => bool_decide (h = hwnd)
  | _ => false
  end.

Definition primary_calls_for (hwnd : Z) (s : State) : nat :=
  length (List.filter (is_primary_call_for hwnd) (issued s)).

(** A request to the primary move, and a run of such requests, each against
    the desktop of its moment. *)
Record MoveRequest := {
  at_desktop : Desktop;
  req_hwnd : Z;
  req_rect : Rect
}.

Definition serve (P : Platform) (s : State) (r : MoveRequest) : bool * State :=
  let '(x, y, w, h) := req_rect r in
  move_window P (at_desktop r) s (req_hwnd r) x y w h.

Fixpoint serve_all (P : Platform) (s : State) (rs : list MoveRequest)
  : list bool * State :=
  match rs with
  | [] => ([], s)
  | r :: rs' =>
      let '(ok, s) := serve P s r in
      let '(oks, s) := serve_all P s rs' in
      (ok :: oks, s)
  end.

(** A platform that denies every primary positioning call for a handle
    (the window of an elevated process). *)
Definition always_denied (P : Platform) (hwnd : Z) : Prop :=
  ∀ history x y w h,
    P history (user32_SetWindowPos hwnd 0 x y w h _SWP_FLAGS) = Failed ERROR_ACCESS_DENIED.

End Mover.

Import Mover.

(* ===================================================================== *)
(** ** Placement schedulers ([infracommand.py]) *)
(* ===================================================================== *)

Module Scheduler.

(** The two fields of [Config] the placement reads (lines 137-138). *)
Record Config := {
  FILL_RATIO : float;
  EDGE_MARGIN_RATIO : float
}.

Definition default_config : Config :=
  {| FILL_RATIO := 0.995; EDGE_MARGIN_RATIO := 0.01 |}.

(** Line 380. *)
Definition get_quadrant_for_config (d : Desktop) (quad : string) (cfg : Config)
  : option Rect :=
  get_quadrant_physical (EnumDisplayMonitors d) quad (FILL_RATIO cfg) (EDGE_MARGIN_RATIO cfg).

(** The lines [self._log] writes, by kind; [who] is the prefix of the
    message ("Window", "Browser", "MMC", "PowerShell", "RDSH Window"). *)
Inductive LogLine :=
| Placed (who label quad : string) (hwnd : Z)
| PlacementFailed (who label : string) (hwnd : Z)
| PlacementTimeout (who label : string) (attempts : Z)
| LastActiveUpdated (hwnd : Z) (pid : option Z)
| Started (who quad : string)
| StartFailed (who label : string)
| Note (text : string).

(** The closures handed to [QTimer.singleShot], with the variables they
    capture. The [attempt] of a poller is the argument of its next call. *)
Inductive Callback :=
| place_by_pid (pid : Z) (quad label : string) (attempt : Z)
| browser_place_by_snapshot (before_windows : list Z) (exe_name quad label : string)
    (attempt : Z)
| mmc_place_by_snapshot (before_windows : list Z) (quad label : string) (attempt : Z)
| place_powershell (pid : option Z) (quad label title : string) (attempt : Z)
| place_rds_window (pid : Z) (quad label method : string)
    (title_contains class_names : list string) (session_id : Z) (attempt : Z)
| again_move_window (target x y w h : Z)
| again_place_console_window (target x y w h : Z) (label : string)
| again_place_rds_window (target x y w h : Z) (label : string)
| again_try_alternative_window_move (target x y w h : Z).

(** The window object's state the placement touches: the mover's module
    state, Qt's pending single-shot timers as (due time, closure) in the order
    they were armed, the clock, the log, [_last_active_window] with
    [_last_active_pid], and, as a record of what happened, the time and
    attempt number of every call of a poller. *)
Record App := {
  mover : Mover.State;
  timers : list (Z * Callback);
  now : Z;
  console : list LogLine;
  last_active : option (Z * option Z);
  polled : list (Z * Z)
}.

Definition initial_app : App :=
  {| mover := Mover.initial; timers := []; now := 0; console := [];
     last_active := None; polled := [] |}.

Definition with_mover (s : Mover.State) (a : App) : App :=
  {| mover := s; timers := timers a; now := now a; console := console a;
     last_active := last_active a; polled := polled a |}.

Definition with_timers (ts : list (Z * Callback)) (a : App) : App :=
  {| mover := mover a; timers := ts; now := now a; console := console a;
     last_active := last_active a; polled := polled a |}.

Definition at_time (t : Z) (a : App) : App :=
  {| mover := mover a; timers := timers a; now := t; console := console a;
     last_active := last_active a; polled := polled a |}.

(** [self._log(...)]. *)
Definition log (l : LogLine) (a : App) : App :=
  {| mover := mover a; timers := timers a; now := now a; console := console a ++ [l];
     last_active := last_active a; polled := polled a |}.

Definition log_all (ls : list LogLine) (a : App) : App := foldl (λ a l, log l a) a ls.

(** [QTimer.singleShot(ms, cb)]. *)
Definition singleShot (ms : Z) (cb : Callback) (a : App) : App :=
  with_timers (timers a ++ [(now a + ms, cb)]) a.

Definition record_poll (attempt : Z) (a : App) : App :=
  {| mover := mover a; timers := timers a; now := now a; console := console a;
     last_active := last_active a; polled := polled a ++ [(now a, attempt)] |}.

(** Lines 1763-1771. *)
Definition _update_last_active_window (d : Desktop) (hwnd : Z) (pid : option Z) (a : App)
  : App :=
  if bool_decide (hwnd ≠ 0) then
    match IsWindow d hwnd with
    | Some true =>
        log (LastActiveUpdated hwnd pid)
          {| mover := mover a; timers := timers a; now := now a; console := console a;
             last_active := Some (hwnd, pid); polled := polled a |}
    | _ => a
    end
  else a.

(** [move_window] called from the window object. *)
Definition app_move_window (P : Platform) (d : Desktop) (target x y w h : Z) (a : App)
  : bool * App :=
  let '(ok, s) := move_window P d (mover a) target x y w h in
  (ok, with_mover s a).

(** Lines 1942-1981. *)
Definition _try_alternative_window_move (P : Platform) (hwnd x y w h : Z) (a : App)
  : bool * App :=
  let '(ok, s) :=
    try_calls P [gui_SetWindowPos hwnd None x y w h (Z.lor SWP_NOACTIVATE SWP_NOZORDER)]
      (mover a) in
  if ok then (true, log (Note "Alternative move method 1 succeeded") (with_mover s a))
  else
    let '(ok, s) := try_calls P [gui_MoveWindow hwnd x y w h true] s in
    if ok then
      (true, log (Note "Alternative move method 2 (MoveWindow) succeeded") (with_mover s a))
    else
      let '(ok, s) :=
        try_calls P [gui_ShowWindow hwnd SW_RESTORE;
                     gui_SetWindowPos hwnd (Some HWND_TOP) x y w h SWP_NOACTIVATE] s in
      if ok then
        (true, log (Note "Alternative move method 3 (ShowWindow+SetWindowPos) succeeded")
                 (with_mover s a))
      else (false, log (Note "All alternative move methods failed") (with_mover s a)).

(** Lines 2078-2123. *)
Definition _place_console_window (P : Platform) (d : Desktop) (hwnd x y w h : Z) (a : App)
  : bool * App :=
  let '(ok, s) := move_window P d (mover a) hwnd x y w h in
  if ok then (true, with_mover s a)
  else
    let '(ok, s) :=
      first_success P
        [ [gui_ShowWindow hwnd SW_RESTORE;
           gui_SetForegroundWindow hwnd;
           gui_SetWindowPos hwnd (Some HWND_TOP) x y w h (Z.lor SWP_SHOWWINDOW SWP_NOACTIVATE)];
          [gui_MoveWindow hwnd x y w h true];
          [gui_SetWindowPos hwnd None x y w h (Z.lor SWP_NOZORDER SWP_NOACTIVATE)] ] s in
    (ok, with_mover s a).

(** Lines 2224-2262. *)
Definition _place_rds_window (P : Platform) (d : Desktop) (hwnd x y w h : Z) (a : App)
  : bool * App :=
  let '(ok, s) := move_window P d (mover a) hwnd x y w h in
  if ok then (true, with_mover s a)
  else
    let '(ok, s) :=
      first_success P
        [ [gui_ShowWindow hwnd SW_RESTORE;
           gui_SetWindowPos hwnd (Some HWND_TOP) x y w h (Z.lor SWP_SHOWWINDOW SWP_NOACTIVATE)];
          [gui_SetWindowPos hwnd None x y w h
             (Z.lor (Z.lor SWP_NOZORDER SWP_NOACTIVATE) SWP_SHOWWINDOW)];
          [gui_MoveWindow hwnd x y w h true] ] s in
    (ok, with_mover s a).

(** Lines 1729-1761. The pywin32 calls return [None], so no [if result:]
    holds: each of the three calls is issued, one that raises is logged, and
    the function ends in its last line. *)
Definition _try_powershell_alternative_placement (P : Platform) (hwnd x y w h : Z) (a : App)
  : bool * App :=
  let note (r : Reply) (text : string) : list LogLine :=
    match r with Done => [] | Failed _ => [Note text] end in
  let '(r1, s) :=
    issue P (gui_SetWindowPos hwnd (Some 0) x y w h (Z.lor SWP_SHOWWINDOW SWP_NOZORDER))
      (mover a) in
  let '(r2, s) := issue P (gui_MoveWindow hwnd x y w h true) s in
  let '(r3, s) :=
    issue P (gui_SetWindowPos hwnd (Some 0) x y w h
               (Z.lor (Z.lor SWP_SHOWWINDOW SWP_NOZORDER) SWP_NOACTIVATE)) s in
  (false,
   log_all (note r1 "WinAPI placement failed" ++ note r2 "MoveWindow placement failed"
            ++ note r3 "SetWindowPos placement failed"
            ++ [Note "All alternative placement methods failed"])
     (with_mover s a)).

(** Lines 2034-2076; [pid] is [None] when the caller passes Python's [None],
    on which [int(pid)] raises inside the callback. *)
Definition console_classes : list string := ["ConsoleWindowClass"; "VirtualConsoleClass"].

Definition console_callback (d : Desktop) (pid : option Z) (hwnd : Z) : bool :=
  bool_decide
    (and_then (check_toplevel d hwnd)
      (and_then (class_name ← GetClassName d hwnd;
                 Some (bool_decide (class_name ∈ console_classes)))
        (and_then (window_pid ← GetWindowThreadProcessId d hwnd;
                   p ← pid;
                   Some (bool_decide (window_pid = p)))
                  (check_size d hwnd))) = Some true).

Definition _find_console_windows_by_pid (d : Desktop) (pid : option Z) : list Z :=
  List.filter (console_callback d pid) (EnumWindows d).

(** [label.lower() in ['cmd', 'powershell', 'ps']]. *)
Definition is_console_label (label : string) : bool :=
  bool_decide (Py.lower label ∈ ["cmd"; "powershell"; "ps"]).

(** *** What each poller looks for *)

(** Lines 1991-1996. *)
Definition by_pid_windows (d : Desktop) (pid : Z) (label : string) : list Z :=
  let windows :=
    find_windows_by_criteria
      {| Matcher.pid := Some pid; class_names := []; title_contains := [];
         image_names := []; session_id := None |} d in
  match windows with
  | [] => if is_console_label label then _find_console_windows_by_pid d (Some pid) else []
  | _ => windows
  end.

Definition BROWSER_CLASSES : list string :=
  ["Chrome_WidgetWin_1"; "MozillaWindowClass"; "ApplicationFrameWindow"].

(** Lines 1177-1180 and 1203-1206. *)
Definition browser_windows (d : Desktop) (exe_name : string) : list Z :=
  find_windows_by_criteria
    {| Matcher.pid := None; class_names := BROWSER_CLASSES; title_contains := [];
       image_names := [exe_name]; session_id := None |} d.

(** Lines 1235-1238 and 1261-1264. *)
Definition mmc_windows (d : Desktop) : list Z :=
  find_windows_by_criteria
    {| Matcher.pid := None; class_names := ["MMCMainFrame"]; title_contains := [];
       image_names := ["mmc.exe"]; session_id := None |} d.

(** Lines 1671-1689. *)
Definition powershell_windows (d : Desktop) (pid : option Z) (title : string) : list Z :=
  let or_else (windows other : list Z) : list Z :=
    match windows with [] => other | _ => windows end in
  or_else (find_windows_by_criteria
             {| Matcher.pid := pid; class_names := []; title_contains := [];
                image_names := []; session_id := None |} d)
 (or_else (find_windows_by_criteria
             {| Matcher.pid := None; class_names := []; title_contains := [title];
                image_names := []; session_id := None |} d)
 (or_else (find_windows_by_criteria
             {| Matcher.pid := None;
                class_names := ["ConsoleWindowClass"; "VirtualConsoleClass";
                                "CASCADIA_HOSTING_WINDOW_CLASS"];
                title_contains := [];
                image_names := ["powershell.exe"; "pwsh.exe"; "WindowsTerminal.exe"];
                session_id := None |} d)
          (_find_console_windows_by_pid d pid))).

(** Lines 2173-2193. *)
Definition rds_windows (d : Desktop) (pid : Z) (method : string)
    (title_contains class_names : list string) (session_id : Z) : list Z :=
  let by_pid :=
    find_windows_by_criteria
      {| Matcher.pid := Some pid; Matcher.class_names := []; Matcher.title_contains := [];
         image_names := []; Matcher.session_id := Some session_id |} d in
  let by_title :=
    find_windows_by_criteria
      {| Matcher.pid := None; Matcher.class_names := class_names;
         Matcher.title_contains := title_contains;
         image_names := []; Matcher.session_id := Some session_id |} d in
  if bool_decide (method = "pid") then by_pid
  else if bool_decide (method = "title_match") then by_title
  else if bool_decide (method = "hybrid") then
    match by_pid with [] => by_title | _ => by_pid end
  else [].

(** *** The pollers *)

(** An exception that leaves a timer slot ends that call: the state reached
    so far stays. [get_quadrant_for_config] is the one call of the pollers
    that can raise outside a [try]. *)

(** Lines 1987-2028. *)
Definition run_place_by_pid (P : Platform) (cfg : Config) (d : Desktop)
    (pid : Z) (quad label : string) (attempt : Z) (a : App) : App :=
  let max_attempts := 20 in
  let attempt := attempt + 1 in
  let a := record_poll attempt a in
  let windows := by_pid_windows d pid label in
  match Py.max_key (get_window_area d) windows with
  | Some target =>
      match get_quadrant_for_config d quad cfg with
      | None => a
      | Some (x, y, w, h) =>
          let '(success, a) :=
            if is_console_label label then _place_console_window P d target x y w h a
            else app_move_window P d target x y w h a in
          if success then
            let a := log (Placed "Window" label quad target) a in
            let a := _update_last_active_window d target (Some pid) a in
            if is_console_label label
            then singleShot 300 (again_place_console_window target x y w h label) a
            else singleShot 500 (again_move_window target x y w h) a
          else log (PlacementFailed "Window" label target) a
      end
  | None =>
      if attempt <? max_attempts then
        let delay := if is_console_label label then 600 else 500 in
        singleShot delay (place_by_pid pid quad label attempt) a
      else log (PlacementTimeout "Window" label attempt) a
  end.

(** Lines 1199-1230. *)
Definition run_browser_place_by_snapshot (P : Platform) (cfg : Config) (d : Desktop)
    (before_windows : list Z) (exe_name quad label : string) (attempt : Z) (a : App)
  : App :=
  let attempt := attempt + 1 in
  let a := record_poll attempt a in
  let current_windows := browser_windows d exe_name in
  let new_windows := new_windows before_windows current_windows in
  match Py.max_key (get_window_area d) new_windows with
  | Some target =>
      match get_quadrant_for_config d quad cfg with
      | None => a
      | Some (x, y, w, h) =>
          let '(ok, a) := app_move_window P d target x y w h a in
          if ok then
            let a := log (Placed "Browser" label quad target) a in
            let a := _update_last_active_window d target None a in
            singleShot 500 (again_move_window target x y w h) a
          else log (PlacementFailed "Browser" label target) a
      end
  | None =>
      if attempt <? 20 then
        singleShot 500 (browser_place_by_snapshot before_windows exe_name quad label attempt) a
      else log (PlacementTimeout "Browser" label attempt) a
  end.

(** Lines 1257-1311. *)
Definition run_mmc_place_by_snapshot (P : Platform) (cfg : Config) (d : Desktop)
    (before_windows : list Z) (quad label : string) (attempt : Z) (a : App) : App :=
  let attempt := attempt + 1 in
  let a := record_poll attempt a in
  let current_windows := mmc_windows d in
  let new_windows := new_windows before_windows current_windows in
  match Py.max_key (get_window_area d) new_windows with
  | Some target =>
      match get_quadrant_for_config d quad cfg with
      | None => a
      | Some (x, y, w, h) =>
          let a := log (Note "MMC trying to place") a in
          let '(ok, a) := app_move_window P d target x y w h a in
          if ok then
            let a := log (Placed "MMC" label quad target) a in
            let a := _update_last_active_window d target None a in
            singleShot 500 (again_move_window target x y w h) a
          else
            let a := log (Note "Standard move failed, trying alternative WinAPI flags...") a in
            let '(ok_alt, a) := _try_alternative_window_move P target x y w h a in
            if ok_alt then
              let a := log (Placed "MMC" label quad target) a in
              let a := _update_last_active_window d target None a in
              singleShot 500 (again_try_alternative_window_move target x y w h) a
            else
              match GetWindowRect d target with
              | Some _ =>
                  log (Note "MMC detected but unmoveable")
                    (log (PlacementFailed "MMC" label target) a)
              | None => log (PlacementFailed "MMC" label target) a
              end
      end
  | None =>
      if attempt <? 18 then
        singleShot 600 (mmc_place_by_snapshot before_windows quad label attempt) a
      else log (PlacementTimeout "MMC" label attempt) a
  end.

(** Lines 1667-1725. *)
Definition run_place_powershell (P : Platform) (cfg : Config) (d : Desktop)
    (pid : option Z) (quad label title : string) (attempt : Z) (a : App) : App :=
  let max_attempts := 25 in
  let attempt := attempt + 1 in
  let a := record_poll attempt a in
  let windows := powershell_windows d pid title in
  match Py.max_key (get_window_area d) windows with
  | Some target =>
      match get_quadrant_for_config d quad cfg with
      | None => a
      | Some (x, y, w, h) =>
          let a :=
            match GetWindowText d target, GetClassName d target with
            | Some _, Some _ => log (Note "PowerShell window found") a
            | _, _ => a
            end in
          let '(success, a) := _place_console_window P d target x y w h a in
          if success then
            let a := log (Placed "PowerShell" label quad target) a in
            let a := _update_last_active_window d target pid a in
            singleShot 500 (again_place_console_window target x y w h label) a
          else
            let a := log (PlacementFailed "PowerShell" label target) a in
            snd (_try_powershell_alternative_placement P target x y w h a)
      end
  | None =>
      if attempt <? max_attempts then
        let delay := if attempt <? 10 then 800 else 1200 in
        singleShot delay (place_powershell pid quad label title attempt) a
      else log (PlacementTimeout "PowerShell" label attempt) a
  end.

(** Lines 2169-2219. *)
Definition run_place_rds_window (P : Platform) (cfg : Config) (d : Desktop)
    (pid : Z) (quad label method : string) (title_contains class_names : list string)
    (session_id : Z) (attempt : Z) (a : App) : App :=
  let max_attempts := 25 in
  let attempt := attempt + 1 in
  let a := record_poll attempt a in
  let windows := rds_windows d pid method title_contains class_names session_id in
  match Py.max_key (get_window_area d) windows with
  | Some target =>
      match get_quadrant_for_config d quad cfg with
      | None => a
      | Some (x, y, w, h) =>
          let '(success, a) := _place_rds_window P d target x y w h a in
          if success then
            let a := log (Placed "RDSH Window" label quad target) a in
            let a := _update_last_active_window d target (Some pid) a in
            singleShot 500 (again_place_rds_window target x y w h label) a
          else log (PlacementFailed "RDSH Window" label target) a
      end
  | None =>
      if attempt <? max_attempts then
        let delay := if attempt <? 10 then 800 else 1000 in
        singleShot delay
          (place_rds_window pid quad label method title_contains class_names session_id
             attempt) a
      else log (PlacementTimeout "RDSH Window" label attempt) a
  end.

(** *** Qt's timer loop *)

(** Running one closure against the desktop of the moment it fires. *)
Definition fire (P : Platform) (cfg : Config) (d : Desktop) (cb : Callback) (a : App) : App :=
  match cb with
  | place_by_pid pid quad label attempt =>
      run_place_by_pid P cfg d pid quad label attempt a
  | browser_place_by_snapshot before exe_name quad label attempt =>
      run_browser_place_by_snapshot P cfg d before exe_name quad label attempt a
  | mmc_place_by_snapshot before quad label attempt =>
      run_mmc_place_by_snapshot P cfg d before quad label attempt a
  | place_powershell pid quad label title attempt =>
      run_place_powershell P cfg d pid quad label title attempt a
  | place_rds_window pid quad label method title_contains class_names session_id attempt =>
      run_place_rds_window P cfg d pid quad label method title_contains class_names
        session_id attempt a
  | again_move_window target x y w h => snd (app_move_window P d target x y w h a)
  | again_place_console_window target x y w h _ =>
      snd (_place_console_window P d target x y w h a)
  | again_place_rds_window target x y w h _ =>
      snd (_place_rds_window P d target x y w h a)
  | again_try_alternative_window_move target x y w h =>
      snd (_try_alternative_window_move P target x y w h a)
  end.

(** The pending timer that fires next: the earliest due time, and among
    equal due times the one armed first. *)
Fixpoint pop_due (t : Z) (ts : list (Z * Callback))
  : option (Callback * list (Z * Callback)) :=
  match ts with
  | [] => None
  | (t', cb) :: ts' =>
      if decide (t' = t) then Some (cb, ts')
      else '(cb', rest) ← pop_due t ts'; Some (cb', (t', cb) :: rest)
  end.

Definition next_due (ts : list (Z * Callback)) : option Z :=
  match ts with
  | [] => None
  | (t, _) :: ts' => Some (foldr Z.min t (map fst ts'))
  end.

(** One turn of the event loop; [None] when no timer is pending. [desk] is
    the desktop as a function of the time in milliseconds. *)
Definition step (P : Platform) (cfg : Config) (desk : Z → Desktop) (a : App) : option App :=
  t ← next_due (timers a);
  '(cb, rest) ← pop_due t (timers a);
  Some (fire P cfg (desk t) cb (at_time t (with_timers rest a))).

Fixpoint run (fuel : nat) (P : Platform) (cfg : Config) (desk : Z → Desktop) (a : App) : App :=
  match fuel with
  | O => a
  | S fuel' =>
      match step P cfg desk a with
      | None => a
      | Some a' => run fuel' P cfg desk a'
      end
  end.

(** *** Scheduling and launching *)

(** Lines 1983-2032. *)
Definition _schedule_window_placement_by_pid (pid : Z) (quad label : string) (a : App) : App :=
  let initial_delay := if is_console_label label then 1200 else 800 in
  singleShot initial_delay (place_by_pid pid quad label 0) a.

(** Lines 1197-1230: the function defines [place_by_snapshot] and returns. *)
Definition _schedule_browser_placement_by_snapshot (before_windows : list Z)
    (exe_name quad label : string) (a : App) : App :=
  a.

(** Lines 1255-1314. *)
Definition _schedule_mmc_placement_by_snapshot (before_windows : list Z)
    (quad label : string) (a : App) : App :=
  singleShot 1200 (mmc_place_by_snapshot before_windows quad label 0) a.

(** Lines 1663-1727. *)
Definition _schedule_powershell_placement (pid : option Z) (quad label title : string)
    (a : App) : App :=
  singleShot 1000 (place_powershell pid quad label title 0) a.

(** Lines 2161-2222; [method], [title_contains] and [class_names] are the
    entries of the tool's [window_placement] dictionary, with their defaults
    when absent. *)
Definition _schedule_rds_window_placement (pid : Z) (quad label method : string)
    (title_contains class_names : list string) (session_id : Z) (a : App) : App :=
  singleShot 1500
    (place_rds_window pid quad label method title_contains class_names session_id 0) a.

(** What [try_start_exe] and [try_start_exe_uac] return, without the error
    text: [ok], the process id if one is known, and [elevated]. *)
Record StartResult := {
  ok : bool;
  started_pid : option Z;
  elevated : bool
}.

(** Lines 1172-1195; [d] is the desktop at the moment of the launch. *)
Definition _launch_browser_with_snapshot (d : Desktop) (start : StartResult)
    (exe_name label quad : string) (uac : bool) (a : App) : App :=
  let before_windows := browser_windows d exe_name in
  if ok start then
    let a := log (Started (if uac then "Browser elevated" else "Browser") quad) a in
    _schedule_browser_placement_by_snapshot before_windows exe_name quad label a
  else log (StartFailed "Browser" label) a.

(** Lines 1232-1253. *)
Definition _launch_mmc_with_snapshot (d : Desktop) (start : StartResult)
    (label quad : string) (uac : bool) (a : App) : App :=
  let before_windows := mmc_windows d in
  if ok start then
    let a := log (Started (if uac then "MMC elevated" else "MMC") quad) a in
    _schedule_mmc_placement_by_snapshot before_windows quad label a
  else log (StartFailed "MMC" label) a.

End Scheduler.

Import Scheduler.

(* ===================================================================== *)
(** ** Concrete desktops and platforms *)
(* ===================================================================== *)

Module Examples.

(** A visible top-level window with everything readable. *)
Record Window := {
  w_hwnd : Z;
  w_class : string;
  w_pid : Z;
  w_title : string;
  w_rect : Rect;
  w_image : string
}.

Definition window_of (ws : list Window) (hwnd : Z) : option Window :=
  List.find (λ w, bool_decide (w_hwnd w = hwnd)) ws.

Definition process_image (ws : list Window) (pid : Z) : string :=
  match List.find (λ w, bool_decide (w_pid w = pid)) ws with
  | Some w => w_image w
  | None => EmptyString
  end.

(** The desktop showing exactly the windows [ws], in this order, on the
    monitors [mons], all processes in session 1; a query on any other handle
    raises. *)
Definition desktop_of (mons : list MonitorInfo) (ws : list Window) : Desktop :=
  {| EnumWindows := map w_hwnd ws;
     IsWindowVisible := λ h, (λ _, true) <$> window_of ws h;
     GetParent := λ h, (λ _, 0) <$> window_of ws h;
     GetClassName := λ h, w_class <$> window_of ws h;
     GetWindowThreadProcessId := λ h, w_pid <$> window_of ws h;
     GetWindowText := λ h, w_title <$> window_of ws h;
     GetWindowRect := λ h, w_rect <$> window_of ws h;
     IsIconic := λ h, (λ _, false) <$> window_of ws h;
     IsWindow := λ h, Some (bool_decide (is_Some (window_of ws h)));
     get_image_name_basename := process_image ws;
     _get_process_session_id := λ _, 1;
     EnumDisplayMonitors := mons |}.

Definition empty_desktop : Desktop := desktop_of [] [].

(** A packaged app behind the app-container wrapper class, 400 x 300. *)
Definition calculator : Window :=
  {| w_hwnd := 1; w_class := "ApplicationFrameWindow"; w_pid := 10;
     w_title := "Calculator"; w_rect := (100, 100, 500, 400);
     w_image := "applicationframehost.exe" |}.

(** Two windows of process 77: 250 x 200 and 400 x 300 pixels. *)
Definition host_small : Window :=
  {| w_hwnd := 31; w_class := "HostWindow"; w_pid := 77; w_title := "Host";
     w_rect := (0, 0, 250, 200); w_image := "host.exe" |}.

Definition host_large : Window :=
  {| w_hwnd := 32; w_class := "HostWindow"; w_pid := 77; w_title := "Host";
     w_rect := (50, 50, 450, 350); w_image := "host.exe" |}.

(** A tool window of 150 x 300: too narrow for the matcher. *)
Definition narrow : Window :=
  {| w_hwnd := 41; w_class := "HostWindow"; w_pid := 77; w_title := "Palette";
     w_rect := (0, 0, 150, 300); w_image := "host.exe" |}.

(** A platform on which every call succeeds, and one on which the primary
    positioning call is denied for one handle. *)
Definition obliging : Platform := λ _ _, Done.

Definition denying (hwnd : Z) : Platform := λ _ c,
  match c with
  | user32_SetWindowPos h _ _ _ _ _ _ =>
      if bool_decide (h = hwnd) then Failed ERROR_ACCESS_DENIED else Done
  | _ => Done
  end.

(** A platform on which the primary call fails for one handle with
    ERROR_INVALID_PARAMETER (87). *)
Definition failing (hwnd : Z) : Platform := λ _ c,
  match c with
  | user32_SetWindowPos h _ _ _ _ _ _ =>
      if bool_decide (h = hwnd) then Failed 87 else Done
  | _ => Done
  end.

(** Criteria that name title substrings only, and the same with a class
    name beside them. *)
Definition by_title_only : Criteria :=
  {| pid := None; class_names := []; title_contains := ["notepad"];
     image_names := []; session_id := None |}.

Definition by_title_and_class : Criteria :=
  {| pid := None; class_names := ["Notepad"]; title_contains := ["notepad"];
     image_names := []; session_id := None |}.

(** A new Chrome window of 800 x 600 that appears one second after the
    launch, on a desktop that showed no browser window before. *)
Definition chrome : Window :=
  {| w_hwnd := 51; w_class := "Chrome_WidgetWin_1"; w_pid := 900;
     w_title := "New Tab - Google Chrome"; w_rect := (200, 200, 1000, 800);
     w_image := "chrome.exe" |}.

Definition mmc_frame : Window :=
  {| w_hwnd := 61; w_class := "MMCMainFrame"; w_pid := 910;
     w_title := "Event Viewer"; w_rect := (200, 200, 1000, 800);
     w_image := "mmc.exe" |}.

Definition appears_after (ms : Z) (w : Window) : Z → Desktop :=
  λ t, if t <? ms then empty_desktop else desktop_of [] [w].

Definition started : StartResult :=
  {| ok := true; started_pid := Some 900; elevated := false |}.

(** A console window of process 4321, 300 x 200, that appears 2.4 s after
    the launch, beside a window of another process that was there before. *)
Definition console_4321 : Window :=
  {| w_hwnd := 71; w_class := "ConsoleWindowClass"; w_pid := 4321;
     w_title := "cmd"; w_rect := (0, 0, 300, 200); w_image := "conhost.exe" |}.

Definition console_appears : Z → Desktop :=
  λ t, if t <? 2400 then desktop_of [] [host_large]
       else desktop_of [] [host_large; console_4321].

End Examples.

Import Examples.

(* ===================================================================== *)
(** ** The retry loops, read off the pollers *)
(* ===================================================================== *)

Module Retry.

(** The five polling closures. *)
Definition is_poller (cb : Callback) : bool :=
  match cb with
  | place_by_pid _ _ _ _ | browser_place_by_snapshot _ _ _ _ _
  | mmc_place_by_snapshot _ _ _ _ | place_powershell _ _ _ _ _
  | place_rds_window _ _ _ _ _ _ _ _ => true
  | _ => false
  end.

(** The attempt counter a closure carries, and the closure with another one. *)
Definition attempt_of (cb : Callback) : Z :=
  match cb with
  | place_by_pid _ _ _ n | browser_place_by_snapshot _ _ _ _ n
  | mmc_place_by_snapshot _ _ _ n | place_powershell _ _ _ _ n
  | place_rds_window _ _ _ _ _ _ _ n => n
  | _ => 0
  end.

Definition with_attempt (cb : Callback) (n : Z) : Callback :=
  match cb with
  | place_by_pid pid quad label _ => place_by_pid pid quad label n
  | browser_place_by_snapshot before exe_name quad label _ =>
      browser_place_by_snapshot before exe_name quad label n
  | mmc_place_by_snapshot before quad label _ => mmc_place_by_snapshot before quad label n
  | place_powershell pid quad label title _ => place_powershell pid quad label title n
  | place_rds_window pid quad label method titles classes sid _ =>
      place_rds_window pid quad label method titles classes sid n
  | _ => cb
  end.

(** The windows a poll of the closure would choose from. *)
Definition candidates (d : Desktop) (cb : Callback) : list Z :=
  match cb with
  | place_by_pid pid _ label _ => by_pid_windows d pid label
  | browser_place_by_snapshot before exe_name _ _ _ =>
      new_windows before (browser_windows d exe_name)
  | mmc_place_by_snapshot before _ _ _ => new_windows before (mmc_windows d)
  | place_powershell pid _ _ title _ => powershell_windows d pid title
  | place_rds_window pid _ _ method titles classes sid _ =>
      rds_windows d pid method titles classes sid
  | _ => []
  end.

(** The attempt budget of each loop. *)
Definition budget (cb : Callback) : Z :=
  match cb with
  | place_by_pid _ _ _ _ => 20
  | browser_place_by_snapshot _ _ _ _ _ => 20
  | mmc_place_by_snapshot _ _ _ _ => 18
  | place_powershell _ _ _ _ _ => 25
  | place_rds_window _ _ _ _ _ _ _ _ => 25
  | _ => 0
  end.

(** The wait in milliseconds after the poll numbered [attempt] found
    nothing. *)
Definition interval (cb : Callback) (attempt : Z) : Z :=
  match cb with
  | place_by_pid _ _ label _ => if is_console_label label then 600 else 500
  | browser_place_by_snapshot _ _ _ _ _ => 500
  | mmc_place_by_snapshot _ _ _ _ => 600
  | place_powershell _ _ _ _ _ => if attempt <? 10 then 800 else 1200
  | place_rds_window _ _ _ _ _ _ _ _ => if attempt <? 10 then 800 else 1000
  | _ => 0
  end.

(** The line logged when the poll numbered [attempts] used up the budget. *)
Definition timeout_line (cb : Callback) (attempts : Z) : LogLine :=
  match cb with
  | place_by_pid _ _ label _ => PlacementTimeout "Window" label attempts
  | browser_place_by_snapshot _ _ _ label _ => PlacementTimeout "Browser" label attempts
  | mmc_place_by_snapshot _ _ label _ => PlacementTimeout "MMC" label attempts
  | place_powershell _ _ label _ _ => PlacementTimeout "PowerShell" label attempts
  | place_rds_window _ _ label _ _ _ _ _ => PlacementTimeout "RDSH Window" label attempts
  | _ => Note EmptyString
  end.

(** [n] unsuccessful polls in a row, the first at time [t] and numbered
    [attempt + 1]: the (time, attempt) pairs. *)
Fixpoint poll_trace (cb : Callback) (t attempt : Z) (n : nat) : list (Z * Z) :=
  match n with
  | O => []
  | S n' =>
      (t, attempt + 1)
        :: poll_trace cb (t + interval cb (attempt + 1)) (attempt + 1) n'
  end.

(** The waits between consecutive polls of a record of polls. *)
Fixpoint gaps (polls : list (Z * Z)) : list Z :=
  match polls with
  | (t1, _) :: (((t2, _) :: _) as rest) => (t2 - t1) :: gaps rest
  | _ => []
  end.

End Retry.

Import Retry.

(* ===================================================================== *)
(** ** What a poll that found its window does *)
(* ===================================================================== *)

Module Placement.

(** The handle a platform call acts on. *)
Definition call_hwnd (c : PlatformCall) : Z :=
  match c with
  | user32_SetWindowPos hwnd _ _ _ _ _ _ => hwnd
  | gui_SetWindowPos hwnd _ _ _ _ _ _ => hwnd
  | gui_MoveWindow hwnd _ _ _ _ _ => hwnd
  | gui_ShowWindow hwnd _ => hwnd
  | gui_SetForegroundWindow hwnd => hwnd
  end.

(** The handle an outcome line reports ([Placed] or [PlacementFailed]), and
    the [Placed] lines. *)
Definition outcome_hwnd (l : LogLine) : option Z :=
  match l with
  | Placed _ _ _ hwnd => Some hwnd
  | PlacementFailed _ _ hwnd => Some hwnd
  | _ => None
  end.

Definition is_placed (l : LogLine) : bool :=
  match l with
  | Placed _ _ _ _ => true
  | _ => false
  end.

(** The quadrant label a polling closure was created with. *)
Definition quad_of (cb : Callback) : string :=
  match cb with
  | place_by_pid _ quad _ _ | browser_place_by_snapshot _ _ quad _ _
  | mmc_place_by_snapshot _ quad _ _ | place_powershell _ quad _ _ _
  | place_rds_window _ quad _ _ _ _ _ _ => quad
  | _ => EmptyString
  end.

(** From [s] to [s']: further calls were issued, all of them on [target],
    and [_UNMANAGEABLE_HWND] is as it was. *)
Definition acts_on (target : Z) (s s' : Mover.State) : Prop :=
  _UNMANAGEABLE_HWND s' = _UNMANAGEABLE_HWND s
  ∧ ∃ calls, issued s' = issued s ++ calls ∧ Forall (λ c, call_hwnd c = target) calls.

(** From [a] to [a']: lines were logged, none of them an outcome line. *)
Definition notes_only (a a' : App) : Prop :=
  ∃ notes, console a' = console a ++ notes ∧ Forall (λ l, outcome_hwnd l = None) notes.

(** The poll that took [a] to [a'] handed [target] to placement at [rect]:
    [move_window target rect] was called first, on the mover state of [a];
    whatever was issued after it was issued on [target] as well; and among the
    lines logged exactly one is an outcome line, it reports [target], and it is
    a [Placed] line when that [move_window] returned [True]. *)
Definition places (P : Platform) (d : Desktop) (target : Z) (rect : Rect) (a a' : App)
  : Prop :=
  let '(x, y, w, h) := rect in
  let m := move_window P d (mover a) target x y w h in
  acts_on target m.2 (mover a')
  ∧ ∃ notes l notes',
      console a' = console a ++ notes ++ l :: notes'
      ∧ Forall (λ n, outcome_hwnd n = None) notes
      ∧ Forall (λ n, outcome_hwnd n = None) notes'
      ∧ outcome_hwnd l = Some target
      ∧ (m.1 = true → is_placed l = true).

(** A second MMC window, for the snapshot scenario: the console that was
    open before the launch. *)
Definition mmc_before : Window :=
  {| w_hwnd := 62; w_class := "MMCMainFrame"; w_pid := 911;
     w_title := "Services"; w_rect := (100, 100, 1300, 900);
     w_image := "mmc.exe" |}.

End Placement.

Import Placement.

(* ===================================================================== *)
(** * Properties *)
(* ===================================================================== *)

(** ** Display geometry *)

Section GeometryFacts.

Lemma quadrant_map_lookup (L T W H : Z) (quad : string) :
  quadrant_map (L, T, W, H) !! quad =
    if decide (quad = "TL") then Some (L, T, W / 2, H / 2)
    else if decide (quad = "TR") then Some (L + W / 2, T, W / 2, H / 2)
    else if decide (quad = "BL") then Some (L, T + H / 2, W / 2, H / 2)
    else if decide (quad = "BR") then Some (L + W / 2, T + H / 2, W / 2, H / 2)
    else if decide (quad = "FULL") then Some (L, T, W, H)
    else None.
Proof.
  unfold quadrant_map.
  repeat (case_decide; [subst quad; by simplify_map_eq |]).
  by simplify_map_eq.
Qed.

Lemma quadrant_map_full (L T W H : Z) :
  quadrant_map (L, T, W, H) !!! "FULL" = (L, T, W, H).
Proof.
  unfold lookup_total, map_lookup_total. by rewrite quadrant_map_lookup.
Qed.

Lemma quadrant_cell_cases (L T W H : Z) :
  quadrant_cell (L, T, W, H) "TL" = (L, T, W / 2, H / 2)
  ∧ quadrant_cell (L, T, W, H) "TR" = (L + W / 2, T, W / 2, H / 2)
  ∧ quadrant_cell (L, T, W, H) "BL" = (L, T + H / 2, W / 2, H / 2)
  ∧ quadrant_cell (L, T, W, H) "BR" = (L + W / 2, T + H / 2, W / 2, H / 2)
  ∧ quadrant_cell (L, T, W, H) "FULL" = (L, T, W, H).
Proof.
  unfold quadrant_cell. rewrite !quadrant_map_lookup. by repeat split.
Qed.

Lemma quadrant_cell_unknown (area : Rect) (quad : string) :
  quad ∉ known_labels → quadrant_cell area quad = area.
Proof.
  intros Hq.
  assert (quad ≠ "TL" ∧ quad ≠ "TR" ∧ quad ≠ "BL" ∧ quad ≠ "BR" ∧ quad ≠ "FULL")
    as (? & ? & ? & ? & ?).
  { unfold known_labels in Hq. rewrite !not_elem_of_cons in Hq. tauto. }
  destruct area as [[[aL aT] aW] aH]. unfold quadrant_cell.
  rewrite quadrant_map_lookup, quadrant_map_full.
  repeat (case_decide; [congruence |]). reflexivity.
Qed.

Lemma in_four_quadrants (q : string) :
  q ∈ four_quadrants → q = "TL" ∨ q = "TR" ∨ q = "BL" ∨ q = "BR".
Proof. unfold four_quadrants. rewrite !elem_of_cons, elem_of_nil. tauto. Qed.

(** Where the fill step puts a cell, once both conversions are known. *)
Lemma apply_fill_some (fill : float) (x y w h tw th : Z) :
  Py.int_int_times_float w fill = Some tw →
  Py.int_int_times_float h fill = Some th →
  apply_fill fill (x, y, w, h) = Some (x + (w - tw) / 2, y + (h - th) / 2, tw, th).
Proof. intros Hw Hh. unfold apply_fill. rewrite Hw, Hh. reflexivity. Qed.

(** A filled cell that is no larger than its cell lies inside it. *)
Lemma filled_inside (x y w h tw th px py : Z) :
  tw ≤ Z.max 0 w → th ≤ Z.max 0 h →
  covers (x + (w - tw) / 2, y + (h - th) / 2, tw, th) px py →
  covers (x, y, w, h) px py.
Proof.
  unfold covers. intros Hw Hh [Hx Hy].
  assert (0 < tw) by lia. assert (0 < th) by lia.
  assert (0 ≤ (w - tw) / 2 ≤ w - tw)
    by (split; [apply Z.div_pos | apply Z.div_le_upper_bound]; lia).
  assert (0 ≤ (h - th) / 2 ≤ h - th)
    by (split; [apply Z.div_pos | apply Z.div_le_upper_bound]; lia).
  lia.
Qed.

(** C9. [clamp_rect_to_primary] returns the width and height it was given,
    and clamping its result again (same monitors) changes nothing. *)
Theorem clamp_keeps_size_and_is_idempotent (mons : list MonitorInfo) (x y w h : Z) :
  ∃ x' y',
    clamp_rect_to_primary mons x y w h = (x', y', w, h)
    ∧ clamp_rect_to_primary mons x' y' w h = (x', y', w, h).
Proof.
  unfold clamp_rect_to_primary.
  destruct (primary_workarea_physical mons) as [[[L T] R] B].
  eexists _, _. split; [reflexivity |].
  repeat f_equal; repeat case_match; rewrite ?Z.ltb_lt, ?Z.ltb_ge in *; lia.
Qed.

(** A rectangle that fits the work area keeps its size and ends inside the
    work area; one that lies inside already is not moved. *)
Theorem clamp_fits_inside (mons : list MonitorInfo) (x y w h L T R B : Z) :
  primary_workarea_physical mons = (L, T, R, B) →
  w ≤ R - L → h ≤ B - T →
  ∃ x' y',
    clamp_rect_to_primary mons x y w h = (x', y', w, h)
    ∧ L ≤ x' ∧ x' + w ≤ R ∧ T ≤ y' ∧ y' + h ≤ B
    ∧ (L ≤ x → x + w ≤ R → x' = x) ∧ (T ≤ y → y + h ≤ B → y' = y).
Proof.
  intros Hwa Hw Hh. unfold clamp_rect_to_primary. rewrite Hwa.
  eexists _, _. split; [reflexivity |].
  repeat case_match; rewrite ?Z.ltb_lt, ?Z.ltb_ge in *; lia.
Qed.

Lemma clamp_fits_inside_witness :
  clamp_rect_to_primary [] (-50) 900 945 527 = (0, 553, 945, 527).
Proof.
  destruct (clamp_fits_inside [] (-50) 900 945 527 0 0 1920 1080 eq_refl)
    as (x' & y' & Hc & _); [lia | lia |].
  rewrite Hc. vm_compute in Hc. by injection Hc as <- <-.
Defined.

(** Without a monitor flagged primary the work area is 1920 x 1080 at the
    origin; with one, it is the work rectangle of the first such monitor. *)
Theorem primary_workarea_fallback (mons : list MonitorInfo) :
  (Forall (λ inf, default 0 (Flags inf) ≠ MONITORINFOF_PRIMARY) mons →
   primary_workarea_physical mons = (0, 0, 1920, 1080))
  ∧ ∀ before inf after,
      mons = before ++ inf :: after →
      Forall (λ inf, default 0 (Flags inf) ≠ MONITORINFOF_PRIMARY) before →
      Flags inf = Some MONITORINFOF_PRIMARY →
      primary_workarea_physical mons = Work inf.
Proof.
  split.
  - induction 1 as [| inf mons' Hinf _ IH]; cbn; [done |]. by rewrite decide_False.
  - intros before inf after -> Hb Hp. induction Hb as [| inf' before' Hinf' _ IH]; cbn.
    + rewrite Hp. cbn. by rewrite decide_True.
    + by rewrite decide_False.
Qed.

(** C10, as the code has it. A label that is none of TL, TR, BL, BR, FULL
    is looked up with the FULL entry as default: for every fill and margin
    ratio the call does what the call with FULL does. When the three
    conversions of a float product to an integer succeed, it returns the whole
    margin-shrunk work area, shrunk by the fill ratio and centred; when one of
    them raises, both calls raise. *)
Theorem unknown_label_is_full (mons : list MonitorInfo) (quad : string)
    (fill_ratio edge_margin_ratio : float) :
  quad ∉ known_labels →
  (∀ area, quadrant_cell area quad = quadrant_cell area "FULL")
  ∧ get_quadrant_physical mons quad fill_ratio edge_margin_ratio
    = get_quadrant_physical mons "FULL" fill_ratio edge_margin_ratio
  ∧ ∀ L T W H target_w target_h,
      shrunk_workarea mons edge_margin_ratio = Some (L, T, W, H) →
      Py.int_int_times_float W fill_ratio = Some target_w →
      Py.int_int_times_float H fill_ratio = Some target_h →
      get_quadrant_physical mons quad fill_ratio edge_margin_ratio
      = Some (L + (W - target_w) / 2, T + (H - target_h) / 2, target_w, target_h).
Proof.
  intros Hq.
  assert (∀ area, quadrant_cell area quad = quadrant_cell area "FULL") as Hcell.
  { intros [[[aL aT] aW] aH]. rewrite (quadrant_cell_unknown _ _ Hq).
    by destruct (quadrant_cell_cases aL aT aW aH) as (_ & _ & _ & _ & ->). }
  split; [exact Hcell |]. unfold get_quadrant_physical.
  destruct (shrunk_workarea mons edge_margin_ratio) as [area |]; cbn.
  - rewrite Hcell. split; [reflexivity |].
    intros L T W H tw th [= ->] Hw Hh.
    destruct (quadrant_cell_cases L T W H) as (_ & _ & _ & _ & ->).
    by apply apply_fill_some.
  - split; [reflexivity |]. intros; discriminate.
Qed.

Lemma unknown_label_is_full_witness :
  get_quadrant_physical [] "CENTER" 0.995 0.01 = Some (15, 13, 1890, 1054)
  ∧ get_quadrant_physical [] "CENTER" 0.995 0.01 = get_quadrant_physical [] "FULL" 0.995 0.01.
Proof.
  assert ("CENTER" ∉ known_labels) as Hq by compute_done.
  destruct (unknown_label_is_full [] "CENTER" 0.995 0.01 Hq) as (_ & Heq & Hrect).
  split; [| exact Heq].
  rewrite (Hrect 10 10 1900 1060 1890 1054); reflexivity.
Defined.

(** The rectangle computed for one of the four quadrants is the fill step
    applied to the quadrant's cell of the margin-shrunk work area. *)
Lemma get_quadrant_physical_filled (mons : list MonitorInfo) (q : string)
    (fill margin : float) (L T W H : Z) (r : Rect) :
  shrunk_workarea mons margin = Some (L, T, W, H) →
  q ∈ four_quadrants →
  get_quadrant_physical mons q fill margin = Some r →
  ∃ x y tw th,
    quadrant_cell (L, T, W, H) q = (x, y, W / 2, H / 2)
    ∧ Py.int_int_times_float (W / 2) fill = Some tw
    ∧ Py.int_int_times_float (H / 2) fill = Some th
    ∧ r = (x + (W / 2 - tw) / 2, y + (H / 2 - th) / 2, tw, th).
Proof.
  intros Hs Hq. unfold get_quadrant_physical. rewrite Hs. cbn.
  destruct (quadrant_cell_cases L T W H) as (Htl & Htr & Hbl & Hbr & _).
  assert (∃ x y, quadrant_cell (L, T, W, H) q = (x, y, W / 2, H / 2)) as (x & y & Hc).
  { apply in_four_quadrants in Hq as [-> | [-> | [-> | ->]]]; eauto. }
  rewrite Hc. unfold apply_fill.
  destruct (Py.int_int_times_float (W / 2) fill) as [tw |]; [| discriminate].
  destruct (Py.int_int_times_float (H / 2) fill) as [th |]; [| discriminate].
  cbn. intros [= <-]. by exists x, y, tw, th.
Qed.

Lemma cells_disjoint (L T W H : Z) (q1 q2 : string) (px py : Z) :
  q1 ∈ four_quadrants → q2 ∈ four_quadrants → q1 ≠ q2 →
  covers (quadrant_cell (L, T, W, H) q1) px py →
  ¬ covers (quadrant_cell (L, T, W, H) q2) px py.
Proof.
  intros H1 H2 Hne.
  destruct (quadrant_cell_cases L T W H) as (Htl & Htr & Hbl & Hbr & _).
  apply in_four_quadrants in H1 as [-> | [-> | [-> | ->]]];
    apply in_four_quadrants in H2 as [-> | [-> | [-> | ->]]];
    try congruence;
    rewrite ?Htl, ?Htr, ?Hbl, ?Hbr; unfold covers; lia.
Qed.

(** C8, as the code has it. For one work area (one result of the margin
    step) and a fill step that does not enlarge a half width or half height
    (the documented fill ratios 0.0-1.0), the rectangles computed for TL, TR, BL and BR lie in
    their cells and no two of them share a point. With the fill step left
    out, the four cells lie in the margin-shrunk work area, no two share a
    point, and together they cover every point of it outside its last column
    and its last row: what integer halving can lose, one pixel per axis. *)
Theorem quadrants_disjoint_and_cover (mons : list MonitorInfo)
    (fill_ratio edge_margin_ratio : float) (L T W H : Z) :
  shrunk_workarea mons edge_margin_ratio = Some (L, T, W, H) →
  fill_shrinks fill_ratio (W / 2) →
  fill_shrinks fill_ratio (H / 2) →
  (∀ q r px py,
     q ∈ four_quadrants →
     get_quadrant_physical mons q fill_ratio edge_margin_ratio = Some r →
     covers r px py → covers (quadrant_cell (L, T, W, H) q) px py)
  ∧ (∀ q1 q2 r1 r2 px py,
       q1 ∈ four_quadrants → q2 ∈ four_quadrants → q1 ≠ q2 →
       get_quadrant_physical mons q1 fill_ratio edge_margin_ratio = Some r1 →
       get_quadrant_physical mons q2 fill_ratio edge_margin_ratio = Some r2 →
       covers r1 px py → ¬ covers r2 px py)
  ∧ (∀ q1 q2 px py,
       q1 ∈ four_quadrants → q2 ∈ four_quadrants → q1 ≠ q2 →
       covers (quadrant_cell (L, T, W, H) q1) px py →
       ¬ covers (quadrant_cell (L, T, W, H) q2) px py)
  ∧ (∀ q px py,
       q ∈ four_quadrants →
       covers (quadrant_cell (L, T, W, H) q) px py → covers (L, T, W, H) px py)
  ∧ (∀ px py,
       covers (L, T, W, H) px py → px ≠ L + W - 1 → py ≠ T + H - 1 →
       ∃ q, q ∈ four_quadrants ∧ covers (quadrant_cell (L, T, W, H) q) px py)
  ∧ 0 ≤ W - 2 * (W / 2) ≤ 1 ∧ 0 ≤ H - 2 * (H / 2) ≤ 1.
Proof.
  intros Hs Hfw Hfh.
  assert (∀ q r px py,
     q ∈ four_quadrants →
     get_quadrant_physical mons q fill_ratio edge_margin_ratio = Some r →
     covers r px py → covers (quadrant_cell (L, T, W, H) q) px py) as Hin.
  { intros q r px py Hq Hr.
    destruct (get_quadrant_physical_filled mons q _ _ _ _ _ _ _ Hs Hq Hr)
      as (x & y & tw & th & Hc & Hw & Hh & ->).
    rewrite Hc. apply filled_inside; [by apply Hfw | by apply Hfh]. }
  pose proof (Z.div_mod W 2 ltac:(lia)) as HW.
  pose proof (Z.mod_pos_bound W 2 ltac:(lia)) as HW'.
  pose proof (Z.div_mod H 2 ltac:(lia)) as HH.
  pose proof (Z.mod_pos_bound H 2 ltac:(lia)) as HH'.
  destruct (quadrant_cell_cases L T W H) as (Htl & Htr & Hbl & Hbr & _).
  split; [exact Hin |]. split; [| split; [| split; [| split]]].
  - intros q1 q2 r1 r2 px py H1 H2 Hne Hr1 Hr2 Hc1 Hc2.
    exact (cells_disjoint L T W H q1 q2 px py H1 H2 Hne
             (Hin _ _ _ _ H1 Hr1 Hc1) (Hin _ _ _ _ H2 Hr2 Hc2)).
  - intros q1 q2 px py. apply cells_disjoint.
  - intros q px py Hq.
    apply in_four_quadrants in Hq as [-> | [-> | [-> | ->]]];
      rewrite ?Htl, ?Htr, ?Hbl, ?Hbr; unfold covers; lia.
  - intros px py Hc Hx Hy. unfold covers in Hc.
    destruct (Z.lt_ge_cases px (L + W / 2)), (Z.lt_ge_cases py (T + H / 2)).
    + exists "TL". split; [compute_done |]. rewrite Htl. unfold covers. lia.
    + exists "BL". split; [compute_done |]. rewrite Hbl. unfold covers. lia.
    + exists "TR". split; [compute_done |]. rewrite Htr. unfold covers. lia.
    + exists "BR". split; [compute_done |]. rewrite Hbr. unfold covers. lia.
  - lia.
Qed.

(** The fallback work area 1920 x 1080 with the default ratios. *)
Lemma quadrants_disjoint_and_cover_witness :
  get_quadrant_physical [] "TL" 0.995 0.01 = Some (12, 11, 945, 527)
  ∧ get_quadrant_physical [] "BR" 0.995 0.01 = Some (962, 541, 945, 527)
  ∧ ∀ px py, covers (12, 11, 945, 527) px py → ¬ covers (962, 541, 945, 527) px py.
Proof.
  assert (shrunk_workarea [] 0.01 = Some (10, 10, 1900, 1060)) as Hs by reflexivity.
  assert (fill_shrinks 0.995 (1900 / 2)) as Hfw.
  { intros t Ht. vm_compute in Ht. injection Ht as <-. by vm_compute. }
  assert (fill_shrinks 0.995 (1060 / 2)) as Hfh.
  { intros t Ht. vm_compute in Ht. injection Ht as <-. by vm_compute. }
  destruct (quadrants_disjoint_and_cover [] 0.995 0.01 10 10 1900 1060 Hs Hfw Hfh)
    as (_ & Hdis & _).
  assert (get_quadrant_physical [] "TL" 0.995 0.01 = Some (12, 11, 945, 527)) as Htl
    by reflexivity.
  assert (get_quadrant_physical [] "BR" 0.995 0.01 = Some (962, 541, 945, 527)) as Hbr
    by reflexivity.
  split; [exact Htl |]. split; [exact Hbr |].
  intros px py.
  apply (Hdis "TL" "BR" (12, 11, 945, 527) (962, 541, 945, 527) px py);
    [compute_done | compute_done | discriminate | exact Htl | exact Hbr].
Defined.

(** C8 as stated fails when the fill step is no shrink: with the fallback
    work area and a fill ratio of 2.0 the rectangles computed for TL and TR
    share the point (500, 100). *)
Lemma fill_above_one_overlaps :
  get_quadrant_physical [] "TL" 2 0.01 = Some (-465, -255, 1900, 1060)
  ∧ get_quadrant_physical [] "TR" 2 0.01 = Some (485, -255, 1900, 1060)
  ∧ covers (-465, -255, 1900, 1060) 500 100
  ∧ covers (485, -255, 1900, 1060) 500 100.
Proof. split; [reflexivity |]. split; [reflexivity |]. unfold covers. lia. Qed.

(** C10 as stated fails: the call does fail for some ratios, whatever the
    label. With the fallback work area, a fill ratio of 1e308 makes
    [w * fill_ratio] infinite and NaN makes it NaN, and [int] raises on both;
    so does a margin ratio of 1e308. The FULL label fails in the same way. *)
Lemma unknown_label_fails_with_full :
  get_quadrant_physical [] "CENTER" 1e308 0.01 = None
  ∧ get_quadrant_physical [] "CENTER" nan 0.01 = None
  ∧ get_quadrant_physical [] "CENTER" 0.995 1e308 = None
  ∧ get_quadrant_physical [] "FULL" 1e308 0.01 = None.
Proof. by repeat split. Qed.

End GeometryFacts.

(** ** Window matcher *)

Section MatcherFacts.

Lemma elem_of_find_windows (c : Criteria) (d : Desktop) (hwnd : Z) :
  hwnd ∈ find_windows_by_criteria c d
  ↔ hwnd ∈ EnumWindows d ∧ enum_callback c d hwnd = true.
Proof.
  unfold find_windows_by_criteria. rewrite !list_elem_of_In, filter_In. tauto.
Qed.

Lemma enum_callback_true (c : Criteria) (d : Desktop) (hwnd : Z) :
  enum_callback c d hwnd = true
  ↔ filters_before_size c d hwnd = Some true ∧ check_size d hwnd = Some true.
Proof.
  unfold enum_callback. rewrite bool_decide_eq_true. unfold and_then.
  destruct (filters_before_size c d hwnd) as [[] |]; intuition congruence.
Qed.

Lemma check_size_true (d : Desktop) (hwnd : Z) :
  check_size d hwnd = Some true
  ↔ ∃ l t r b, GetWindowRect d hwnd = Some (l, t, r, b) ∧ 200 ≤ r - l ∧ 120 ≤ b - t.
Proof.
  unfold check_size. destruct (GetWindowRect d hwnd) as [[[[l t] r] b] |]; cbn.
  - split.
    + intros [= Hs]. exists l, t, r, b. split; [done |].
      apply negb_true_iff, orb_false_iff in Hs as [?%Z.ltb_ge ?%Z.ltb_ge]. lia.
    + intros (? & ? & ? & ? & [= <- <- <- <-] & ? & ?). f_equal.
      apply negb_true_iff, orb_false_iff. split; apply Z.ltb_ge; lia.
  - split; [discriminate | intros (? & ? & ? & ? & ? & _); discriminate].
Qed.

Lemma find_windows_checks (c : Criteria) (d : Desktop) (hwnd : Z) :
  hwnd ∈ find_windows_by_criteria c d
  ↔ hwnd ∈ EnumWindows d
    ∧ check_toplevel d hwnd = Some true
    ∧ check_class c d hwnd = Some true
    ∧ check_pid c d hwnd = Some true
    ∧ check_title c d hwnd = Some true
    ∧ check_image c d hwnd = Some true
    ∧ check_session c d hwnd = Some true
    ∧ check_size d hwnd = Some true.
Proof.
  rewrite elem_of_find_windows, enum_callback_true. unfold filters_before_size, and_then.
  destruct (check_toplevel d hwnd) as [[] |], (check_class c d hwnd) as [[] |],
    (check_pid c d hwnd) as [[] |], (check_title c d hwnd) as [[] |],
    (check_image c d hwnd) as [[] |], (check_session c d hwnd) as [[] |];
    intuition congruence.
Qed.

(** C6. Whatever the other filters are, a window less than 200 pixels wide
    or less than 120 pixels high is not in the matcher's result; and a window
    of at least 200 by 120 pixels that the enumeration shows and that passes
    every filter before the size test is in the result. *)
Theorem minimum_size_filter (c : Criteria) (d : Desktop) (hwnd l t r b : Z) :
  GetWindowRect d hwnd = Some (l, t, r, b) →
  (r - l < 200 ∨ b - t < 120 → hwnd ∉ find_windows_by_criteria c d)
  ∧ (200 ≤ r - l → 120 ≤ b - t →
     hwnd ∈ EnumWindows d → filters_before_size c d hwnd = Some true →
     hwnd ∈ find_windows_by_criteria c d).
Proof.
  intros Hr. split.
  - intros Hsmall [_ Hcb]%elem_of_find_windows.
    apply enum_callback_true in Hcb as [_ Hsz].
    apply check_size_true in Hsz as (l' & t' & r' & b' & Hr' & ? & ?).
    rewrite Hr in Hr'. injection Hr' as <- <- <- <-. lia.
  - intros Hw Hh Hin Hpre. apply elem_of_find_windows. split; [done |].
    apply enum_callback_true. split; [done |].
    apply check_size_true. eauto 10.
Qed.

Lemma minimum_size_filter_witness :
  find_windows_by_criteria no_criteria (desktop_of [] [narrow; host_small]) = [31]
  ∧ 41 ∉ find_windows_by_criteria no_criteria (desktop_of [] [narrow; host_small]).
Proof.
  split; [reflexivity |].
  apply (minimum_size_filter no_criteria (desktop_of [] [narrow; host_small])
           41 0 0 150 300); [reflexivity | lia].
Defined.

Lemma check_class_app_frame (c : Criteria) (d : Desktop) (hwnd : Z) :
  GetClassName d hwnd = Some APP_FRAME → check_class c d hwnd = Some true.
Proof.
  intros Hc. unfold check_class. rewrite Hc. destruct (class_names c); [done |]. cbn.
  case_bool_decide; [done |]. by rewrite bool_decide_eq_true_2.
Qed.

(** C7, as the code has it. A window of class ApplicationFrameWindow always
    passes the class-name filter. When none of the title substrings occurs in
    its title, it passes the title filter if the criteria also name classes,
    and is rejected by the title filter if they name none. *)
Theorem app_frame_carve_out (c : Criteria) (d : Desktop) (hwnd : Z) (text : string) :
  GetClassName d hwnd = Some APP_FRAME →
  GetWindowText d hwnd = Some text →
  existsb (λ search, Py.contains search (Py.lower text)) (title_searches c) = false →
  check_class c d hwnd = Some true
  ∧ (class_names c ≠ [] → check_title c d hwnd = Some true)
  ∧ (class_names c = [] → title_searches c ≠ [] → check_title c d hwnd = Some false).
Proof.
  intros Hc Ht Hno. split; [by apply check_class_app_frame |].
  unfold check_title. rewrite Ht, Hc. cbn. rewrite Hno. split.
  - intros Hcn. destruct (title_searches c); [done |].
    destruct (class_names c); [done |]. cbn. by rewrite bool_decide_eq_true_2.
  - intros -> Hts. by destruct (title_searches c).
Qed.

Lemma app_frame_carve_out_witness :
  check_class by_title_and_class (desktop_of [] [calculator]) 1 = Some true
  ∧ check_title by_title_and_class (desktop_of [] [calculator]) 1 = Some true
  ∧ find_windows_by_criteria by_title_and_class (desktop_of [] [calculator]) = [1].
Proof.
  destruct (app_frame_carve_out by_title_and_class (desktop_of [] [calculator]) 1
              "Calculator" eq_refl eq_refl eq_refl) as (Hclass & Htitle & _).
  split; [exact Hclass |]. split; [apply Htitle; discriminate | reflexivity].
Defined.

(** C7 as stated fails: with title substrings and no class names in the
    criteria, an ApplicationFrameWindow window whose title holds none of the
    substrings is rejected by the title filter, and the matcher returns
    nothing; adding a class name to the same criteria lets it through. *)
Lemma title_filter_rejects_app_frame :
  GetClassName (desktop_of [] [calculator]) 1 = Some APP_FRAME
  ∧ title_searches by_title_only = ["notepad"]
  ∧ GetWindowText (desktop_of [] [calculator]) 1 = Some "Calculator"
  ∧ check_title by_title_only (desktop_of [] [calculator]) 1 = Some false
  ∧ find_windows_by_criteria by_title_only (desktop_of [] [calculator]) = []
  ∧ find_windows_by_criteria by_title_and_class (desktop_of [] [calculator]) = [1].
Proof. by repeat split. Qed.

(** *** Selection *)

Lemma max_from_spec {A} (key : A → Z) (l : list A) (best : A) :
  let m := Py.max_from key best l in
  (m = best ∨ m ∈ l) ∧ key best ≤ key m ∧ ∀ x, x ∈ l → key x ≤ key m.
Proof.
  revert best. induction l as [| y l IH]; intros best; cbn.
  - split; [by left |]. split; [lia |]. intros x Hx. by apply elem_of_nil in Hx.
  - destruct (Z.ltb_spec (key best) (key y)) as [Hlt | Hge].
    + destruct (IH y) as ([Hm | Hm] & Hy & Hall).
      * split; [right; rewrite Hm; by left |]. split; [lia |].
        intros x [-> | Hx]%elem_of_cons; [done | by apply Hall].
      * split; [right; by right |]. split; [lia |].
        intros x [-> | Hx]%elem_of_cons; [done | by apply Hall].
    + destruct (IH best) as ([Hm | Hm] & Hb & Hall).
      * split; [by left |]. split; [done |].
        intros x [-> | Hx]%elem_of_cons; [lia | by apply Hall].
      * split; [right; by right |]. split; [done |].
        intros x [-> | Hx]%elem_of_cons; [lia | by apply Hall].
Qed.

Lemma max_key_spec {A} (key : A → Z) (l : list A) :
  l ≠ [] →
  ∃ m, Py.max_key key l = Some m ∧ m ∈ l ∧ ∀ x, x ∈ l → key x ≤ key m.
Proof.
  destruct l as [| x l]; [done |]. intros _. cbn.
  destruct (max_from_spec key l x) as ([Hm | Hm] & Hx & Hall).
  - eexists. split; [done |]. split; [rewrite Hm; by left |].
    intros y [-> | Hy]%elem_of_cons; [done | by apply Hall].
  - eexists. split; [done |]. split; [by right |].
    intros y [-> | Hy]%elem_of_cons; [done | by apply Hall].
Qed.

Lemma get_window_area_nonneg (d : Desktop) (hwnd : Z) : 0 ≤ get_window_area d hwnd.
Proof.
  unfold get_window_area. destruct (GetWindowRect d hwnd) as [[[[l t] r] b] |]; [| done].
  apply Z.mul_nonneg_nonneg; lia.
Qed.

Lemma get_window_area_spec (d : Desktop) (hwnd : Z) :
  0 ≤ get_window_area d hwnd
  ∧ (GetWindowRect d hwnd = None → get_window_area d hwnd = 0)
  ∧ ∀ l t r b, GetWindowRect d hwnd = Some (l, t, r, b) →
      get_window_area d hwnd = Z.max 0 (r - l) * Z.max 0 (b - t).
Proof.
  split; [apply get_window_area_nonneg |].
  unfold get_window_area. split.
  - by intros ->.
  - by intros l t r b ->.
Qed.

(** *** Snapshot diff *)

Lemma elem_of_new_windows (before current : list Z) (h : Z) :
  h ∈ new_windows before current ↔ h ∈ current ∧ h ∉ before.
Proof.
  unfold new_windows. rewrite list_elem_of_In, filter_In, <- list_elem_of_In.
  rewrite negb_true_iff, bool_decide_eq_false. tauto.
Qed.

Lemma singleton_list (l : list Z) (a : Z) :
  NoDup l → (∀ h, h ∈ l ↔ h = a) → l = [a].
Proof.
  intros Hnd Hl. destruct l as [| x l].
  - exfalso. by apply (elem_of_nil a), Hl.
  - assert (x = a) as -> by (apply Hl; by left).
    apply NoDup_cons in Hnd as [Ha _]. f_equal.
    destruct l as [| y l]; [done |].
    assert (y = a) as -> by (apply Hl; right; by left).
    exfalso. apply Ha. by left.
Qed.

Lemma NoDup_new_windows (before current : list Z) :
  NoDup current → NoDup (new_windows before current).
Proof.
  unfold new_windows. rewrite !NoDup_ListNoDup. apply List.NoDup_filter.
Qed.

Lemma new_windows_only_new (S current : list Z) (h_new : Z) :
  h_new ∉ S →
  (∀ h, h ∈ current ↔ h ∈ S ∨ h = h_new) →
  (∀ h, h ∈ new_windows S current ↔ h = h_new)
  ∧ (NoDup current → new_windows S current = [h_new])
  ∧ ∀ d, Py.max_key (get_window_area d) (new_windows S current) = Some h_new.
Proof.
  intros Hnew Hcur.
  assert (∀ h, h ∈ new_windows S current ↔ h = h_new) as Hset.
  { intros h. rewrite elem_of_new_windows, Hcur. split.
    - intros [[? | ?] ?]; done.
    - intros ->. split; [by right | done]. }
  split; [exact Hset |]. split.
  - intros Hnd. apply singleton_list; [by apply NoDup_new_windows | exact Hset].
  - intros d.
    destruct (max_key_spec (get_window_area d) (new_windows S current))
      as (m & Hm & Hin & _).
    + intros Hnil. apply (elem_of_nil h_new). rewrite <- Hnil. by apply Hset.
    + rewrite Hm. f_equal. by apply Hset.
Qed.

End MatcherFacts.

(** ** UAC-aware mover *)

Section MoverFacts.

Variable P : Platform.

Lemma issue_unmanageable (c : PlatformCall) (s : State) :
  _UNMANAGEABLE_HWND (issue P c s).2 = _UNMANAGEABLE_HWND s.
Proof. reflexivity. Qed.

Lemma issue_primary_calls (hwnd : Z) (c : PlatformCall) (s : State) :
  primary_calls_for hwnd (issue P c s).2
  = (primary_calls_for hwnd s + if is_primary_call_for hwnd c then 1 else 0)%nat.
Proof.
  unfold primary_calls_for, issue. cbn. rewrite List.filter_app, length_app. cbn.
  by destruct (is_primary_call_for hwnd c).
Qed.

Lemma mark_primary_calls (hwnd h : Z) (s : State) :
  primary_calls_for hwnd (mark_unmanageable h s) = primary_calls_for hwnd s.
Proof. reflexivity. Qed.

(** What one call of [safe_set_window_pos_hwnd] does, by cases. *)
Lemma safe_set_cases (s : State) (hwnd x y w h : Z) :
  safe_set_window_pos_hwnd P s hwnd x y w h =
    if decide (hwnd ∈ _UNMANAGEABLE_HWND s) then (false, s)
    else match P (issued s) (user32_SetWindowPos hwnd 0 x y w h _SWP_FLAGS) with
         | Done => (true, (issue P (user32_SetWindowPos hwnd 0 x y w h _SWP_FLAGS) s).2)
         | Failed err =>
             if decide (err = ERROR_ACCESS_DENIED)
             then (false,
                   mark_unmanageable hwnd
                     (issue P (user32_SetWindowPos hwnd 0 x y w h _SWP_FLAGS) s).2)
             else (false, (issue P (user32_SetWindowPos hwnd 0 x y w h _SWP_FLAGS) s).2)
         end.
Proof.
  unfold safe_set_window_pos_hwnd, issue. case_decide; [done |]. cbn.
  by destruct (P _ _).
Qed.

Lemma safe_set_blocked (s : State) (hwnd x y w h : Z) :
  hwnd ∈ _UNMANAGEABLE_HWND s →
  safe_set_window_pos_hwnd P s hwnd x y w h = (false, s).
Proof. intros Hin. rewrite safe_set_cases. by rewrite decide_True. Qed.

(** A call for any handle keeps a blocked handle blocked and issues no
    primary call for it. *)
Lemma safe_set_keeps_blocked (s : State) (blocked hwnd x y w h : Z) :
  blocked ∈ _UNMANAGEABLE_HWND s →
  let '(ok, s') := safe_set_window_pos_hwnd P s hwnd x y w h in
  blocked ∈ _UNMANAGEABLE_HWND s'
  ∧ primary_calls_for blocked s' = primary_calls_for blocked s
  ∧ (hwnd = blocked → ok = false ∧ s' = s).
Proof.
  intros Hb. rewrite safe_set_cases. case_decide as Hin.
  - done.
  - assert (hwnd ≠ blocked) as Hne by (intros ->; done).
    assert (primary_calls_for blocked
              (issue P (user32_SetWindowPos hwnd 0 x y w h _SWP_FLAGS) s).2
            = primary_calls_for blocked s) as Hcalls.
    { rewrite issue_primary_calls. cbn. rewrite bool_decide_eq_false_2 by done. lia. }
    destruct (P _ _) as [| err]; [done |].
    case_decide; [| done].
    split; [| done]. cbn. set_solver.
Qed.

Lemma move_window_keeps_blocked (d : Desktop) (s : State) (blocked hwnd x y w h : Z) :
  blocked ∈ _UNMANAGEABLE_HWND s →
  let '(ok, s') := move_window P d s hwnd x y w h in
  blocked ∈ _UNMANAGEABLE_HWND s'
  ∧ primary_calls_for blocked s' = primary_calls_for blocked s
  ∧ (hwnd = blocked → ok = false).
Proof.
  intros Hb. unfold move_window.
  set (s1 := match IsIconic d hwnd with
             | Some true => (issue P (gui_ShowWindow hwnd 9) s).2
             | _ => s
             end).
  assert (blocked ∈ _UNMANAGEABLE_HWND s1
          ∧ primary_calls_for blocked s1 = primary_calls_for blocked s) as [Hb1 Hc1].
  { subst s1. destruct (IsIconic d hwnd) as [[] |]; try done.
    split; [done |]. rewrite issue_primary_calls. cbn. lia. }
  destruct (clamp_rect_to_primary (EnumDisplayMonitors d) x y w h) as [[[x' y'] w'] h'].
  pose proof (safe_set_keeps_blocked s1 blocked hwnd x' y' w' h' Hb1) as Hs.
  destruct (safe_set_window_pos_hwnd P s1 hwnd x' y' w' h') as [ok s'].
  destruct Hs as (? & ? & Hok). split; [done |]. split; [congruence |].
  intros Heq. by destruct (Hok Heq).
Qed.

Lemma serve_all_keeps_blocked (rs : list MoveRequest) (s : State) (blocked : Z) :
  blocked ∈ _UNMANAGEABLE_HWND s →
  blocked ∈ _UNMANAGEABLE_HWND (serve_all P s rs).2
  ∧ primary_calls_for blocked (serve_all P s rs).2 = primary_calls_for blocked s
  ∧ ∀ i r, rs !! i = Some r → req_hwnd r = blocked →
      (serve_all P s rs).1 !! i = Some false.
Proof.
  revert s. induction rs as [| r rs IH]; intros s Hb; cbn.
  - split; [done |]. split; [done |]. intros i r Hi. by rewrite lookup_nil in Hi.
  - unfold serve. destruct (req_rect r) as [[[x y] w] h] eqn:Hrect.
    pose proof (move_window_keeps_blocked (at_desktop r) s blocked (req_hwnd r) x y w h Hb)
      as Hm.
    destruct (move_window P (at_desktop r) s (req_hwnd r) x y w h) as [ok s1].
    destruct Hm as (Hb1 & Hc1 & Hok).
    destruct (IH s1 Hb1) as (Hb2 & Hc2 & Hoks).
    destruct (serve_all P s1 rs) as [oks s2]. cbn in *.
    split; [done |]. split; [congruence |].
    intros [| i] r' Hi Hr'; cbn in *.
    + injection Hi as <-. by rewrite (Hok Hr').
    + by apply (Hoks i r').
Qed.

(** What a request for a handle that is not blocked adds to the primary
    calls issued for [k]: one call if the request is for [k]. *)
Lemma move_window_primary_calls (d : Desktop) (s : State) (k hwnd x y w h : Z) :
  hwnd ∉ _UNMANAGEABLE_HWND s →
  primary_calls_for k (move_window P d s hwnd x y w h).2
  = (primary_calls_for k s + if bool_decide (hwnd = k) then 1 else 0)%nat.
Proof.
  intros Hnot. unfold move_window.
  set (s1 := match IsIconic d hwnd with
             | Some true => (issue P (gui_ShowWindow hwnd 9) s).2
             | _ => s
             end).
  assert (_UNMANAGEABLE_HWND s1 = _UNMANAGEABLE_HWND s
          ∧ primary_calls_for k s1 = primary_calls_for k s) as [Hu Hc].
  { subst s1. destruct (IsIconic d hwnd) as [[] |]; try done.
    split; [done |]. rewrite issue_primary_calls. cbn. lia. }
  destruct (clamp_rect_to_primary (EnumDisplayMonitors d) x y w h) as [[[x' y'] w'] h'].
  rewrite safe_set_cases, decide_False by (by rewrite Hu).
  destruct (P _ _) as [| err]; [| case_decide]; cbn [snd];
    rewrite ?mark_primary_calls, issue_primary_calls, Hc; done.
Qed.

Lemma move_window_denied (d : Desktop) (s : State) (hwnd x y w h : Z) :
  always_denied P hwnd →
  hwnd ∉ _UNMANAGEABLE_HWND s →
  (move_window P d s hwnd x y w h).1 = false
  ∧ hwnd ∈ _UNMANAGEABLE_HWND (move_window P d s hwnd x y w h).2.
Proof.
  intros Hden Hnot. unfold move_window.
  set (s1 := match IsIconic d hwnd with
             | Some true => (issue P (gui_ShowWindow hwnd 9) s).2
             | _ => s
             end).
  assert (_UNMANAGEABLE_HWND s1 = _UNMANAGEABLE_HWND s) as Hu.
  { subst s1. by destruct (IsIconic d hwnd) as [[] |]. }
  destruct (clamp_rect_to_primary (EnumDisplayMonitors d) x y w h) as [[[x' y'] w'] h'].
  rewrite safe_set_cases, decide_False by (by rewrite Hu).
  rewrite Hden, decide_True by done. cbn. split; [done | set_solver].
Qed.

Lemma serve_all_denied_once (rs : list MoveRequest) (s : State) (hwnd : Z) :
  always_denied P hwnd →
  (primary_calls_for hwnd (serve_all P s rs).2 ≤ primary_calls_for hwnd s + 1)%nat.
Proof.
  intros Hden. revert s. induction rs as [| r rs IH]; intros s; [cbn; lia |].
  destruct (decide (hwnd ∈ _UNMANAGEABLE_HWND s)) as [Hin | Hnot].
  { destruct (serve_all_keeps_blocked (r :: rs) s hwnd Hin) as (_ & -> & _). lia. }
  cbn. unfold serve. destruct (req_rect r) as [[[x y] w] h].
  destruct (decide (req_hwnd r = hwnd)) as [Heq | Hne].
  - destruct (move_window_denied (at_desktop r) s hwnd x y w h Hden Hnot) as [_ Hin'].
    pose proof (move_window_primary_calls (at_desktop r) s hwnd hwnd x y w h Hnot) as Hc.
    rewrite bool_decide_eq_true_2 in Hc by done. rewrite Heq.
    destruct (move_window P (at_desktop r) s hwnd x y w h) as [ok s1]. cbn in *.
    destruct (serve_all_keeps_blocked rs s1 hwnd Hin') as (_ & Hc' & _).
    destruct (serve_all P s1 rs) as [oks s2]. cbn in *. lia.
  - assert (primary_calls_for hwnd (move_window P (at_desktop r) s (req_hwnd r) x y w h).2
            = primary_calls_for hwnd s) as Hc.
    { destruct (decide (req_hwnd r ∈ _UNMANAGEABLE_HWND s)) as [Hb | Hnb].
      - pose proof (move_window_keeps_blocked (at_desktop r) s (req_hwnd r) (req_hwnd r)
                      x y w h Hb) as Hk.
        unfold move_window in *.
        set (s1 := match IsIconic (at_desktop r) (req_hwnd r) with
                   | Some true => (issue P (gui_ShowWindow (req_hwnd r) 9) s).2
                   | _ => s
                   end) in *.
        assert (_UNMANAGEABLE_HWND s1 = _UNMANAGEABLE_HWND s
                ∧ primary_calls_for hwnd s1 = primary_calls_for hwnd s) as [Hu Hc1].
        { subst s1. destruct (IsIconic (at_desktop r) (req_hwnd r)) as [[] |]; try done.
          split; [done |]. rewrite issue_primary_calls. cbn. lia. }
        destruct (clamp_rect_to_primary _ x y w h) as [[[x' y'] w'] h'].
        rewrite safe_set_blocked by (by rewrite Hu). done.
      - rewrite move_window_primary_calls by done.
        rewrite bool_decide_eq_false_2 by done. lia. }
    specialize (IH (move_window P (at_desktop r) s (req_hwnd r) x y w h).2).
    destruct (move_window P (at_desktop r) s (req_hwnd r) x y w h) as [ok s1]. cbn in *.
    destruct (serve_all P s1 rs) as [oks s2]. cbn in *. lia.
Qed.

(** The set only grows: whatever the platform answers, every handle in the
    set before a run of requests is in it afterwards. *)
Theorem unmanageable_set_only_grows (rs : list MoveRequest) (s : State) :
  _UNMANAGEABLE_HWND s ⊆ _UNMANAGEABLE_HWND (serve_all P s rs).2.
Proof.
  intros hwnd Hin. by destruct (serve_all_keeps_blocked rs s hwnd Hin) as [? _].
Qed.

(** C1. When the primary call for a handle that is not yet in the set fails
    with access-denied (5), [safe_set_window_pos_hwnd] returns [False] and the
    handle is added to [_UNMANAGEABLE_HWND]. For a handle in the set, it
    returns [False] and leaves the state as it is: no call is issued. So over
    any later run of [move_window] requests, for any handles, the handle stays
    in the set, the number of primary calls issued for it does not grow, and
    every request for it returns [False]; and on a platform that always denies
    the handle, a run of requests issues the primary call for it at most once.
    A failure with another error code returns [False] and leaves the set as it
    is. *)
Theorem denied_handle_is_never_moved_again :
  (∀ s hwnd x y w h,
     hwnd ∉ _UNMANAGEABLE_HWND s →
     P (issued s) (user32_SetWindowPos hwnd 0 x y w h _SWP_FLAGS)
       = Failed ERROR_ACCESS_DENIED →
     ∃ s', safe_set_window_pos_hwnd P s hwnd x y w h = (false, s')
           ∧ _UNMANAGEABLE_HWND s' = {[hwnd]} ∪ _UNMANAGEABLE_HWND s
           ∧ primary_calls_for hwnd s' = S (primary_calls_for hwnd s))
  ∧ (∀ s hwnd x y w h,
       hwnd ∈ _UNMANAGEABLE_HWND s →
       safe_set_window_pos_hwnd P s hwnd x y w h = (false, s))
  ∧ (∀ s hwnd rs,
       hwnd ∈ _UNMANAGEABLE_HWND s →
       hwnd ∈ _UNMANAGEABLE_HWND (serve_all P s rs).2
       ∧ primary_calls_for hwnd (serve_all P s rs).2 = primary_calls_for hwnd s
       ∧ ∀ i r, rs !! i = Some r → req_hwnd r = hwnd →
           (serve_all P s rs).1 !! i = Some false)
  ∧ (∀ s hwnd rs,
       always_denied P hwnd →
       (primary_calls_for hwnd (serve_all P s rs).2 ≤ primary_calls_for hwnd s + 1)%nat)
  ∧ (∀ s hwnd x y w h err,
       hwnd ∉ _UNMANAGEABLE_HWND s →
       P (issued s) (user32_SetWindowPos hwnd 0 x y w h _SWP_FLAGS) = Failed err →
       err ≠ ERROR_ACCESS_DENIED →
       ∃ s', safe_set_window_pos_hwnd P s hwnd x y w h = (false, s')
             ∧ _UNMANAGEABLE_HWND s' = _UNMANAGEABLE_HWND s
             ∧ issued s' = issued s ++ [user32_SetWindowPos hwnd 0 x y w h _SWP_FLAGS]).
Proof.
  split; [| split; [| split; [| split]]].
  - intros s hwnd x y w h Hnot Hdenied. rewrite safe_set_cases.
    rewrite decide_False by done. rewrite Hdenied, decide_True by done.
    eexists. split; [done |]. split; [done |].
    rewrite mark_primary_calls, issue_primary_calls. cbn.
    rewrite bool_decide_eq_true_2 by done. lia.
  - intros. by apply safe_set_blocked.
  - intros s hwnd rs Hin. by apply serve_all_keeps_blocked.
  - intros s hwnd rs Hden. by apply serve_all_denied_once.
  - intros s hwnd x y w h err Hnot Hfail Herr. rewrite safe_set_cases.
    rewrite decide_False by done. rewrite Hfail, decide_False by done.
    eexists. split; done.
Qed.

End MoverFacts.

(** The scenario of the specification: the primary call is denied for
    handle 7; a later request for 7 issues nothing, one for 8 is served. *)
Lemma denied_handle_is_never_moved_again_witness :
  let requests :=
    [ {| at_desktop := empty_desktop; req_hwnd := 7; req_rect := (0, 0, 400, 300) |};
      {| at_desktop := empty_desktop; req_hwnd := 8; req_rect := (0, 0, 400, 300) |};
      {| at_desktop := empty_desktop; req_hwnd := 7; req_rect := (10, 10, 400, 300) |} ] in
  (serve_all (denying 7) Mover.initial requests).1 = [false; true; false]
  ∧ primary_calls_for 7 (serve_all (denying 7) Mover.initial requests).2 = 1%nat
  ∧ primary_calls_for 8 (serve_all (denying 7) Mover.initial requests).2 = 1%nat
  ∧ _UNMANAGEABLE_HWND (serve_all (denying 7) Mover.initial requests).2 = {[7]}.
Proof.
  intros requests.
  destruct (denied_handle_is_never_moved_again (denying 7)) as (Hadd & _ & Hlife & _ & _).
  destruct (Hadd Mover.initial 7 0 0 400 300) as (s1 & Hs1 & Hset & Hcount);
    [set_solver | reflexivity |].
  assert (7 ∈ _UNMANAGEABLE_HWND s1) as Hin by (rewrite Hset; set_solver).
  destruct (Hlife s1 7 (tail requests) Hin) as (_ & Hcalls & _).
  split; [reflexivity |]. split; [| split; [reflexivity |]].
  - replace (serve_all (denying 7) Mover.initial requests).2
      with (serve_all (denying 7) s1 (tail requests)).2.
    + rewrite Hcalls, Hcount. reflexivity.
    + injection Hs1 as <-. reflexivity.
  - apply set_eq. intros k. vm_compute. set_solver.
Defined.

(** ** Placement schedulers *)

Section SchedulerFacts.

Variable P : Platform.
Variable cfg : Config.

(** A poll that finds no candidate: it is recorded, and either the closure
    is armed again with the next attempt number, or the timeout is logged. *)
Lemma fire_no_match (d : Desktop) (cb : Callback) (a : App) :
  is_poller cb = true →
  candidates d cb = [] →
  fire P cfg d cb a =
    let attempt := attempt_of cb + 1 in
    if attempt <? budget cb
    then singleShot (interval cb attempt) (with_attempt cb attempt) (record_poll attempt a)
    else log (timeout_line cb attempt) (record_poll attempt a).
Proof.
  intros Hp Hc. destruct cb; try discriminate; cbn in Hc |- *.
  - unfold run_place_by_pid. by rewrite Hc.
  - unfold run_browser_place_by_snapshot. by rewrite Hc.
  - unfold run_mmc_place_by_snapshot. by rewrite Hc.
  - unfold run_place_powershell. by rewrite Hc.
  - unfold run_place_rds_window. by rewrite Hc.
Qed.

Lemma candidates_with_attempt (d : Desktop) (cb : Callback) (n : Z) :
  candidates d (with_attempt cb n) = candidates d cb.
Proof. by destruct cb. Qed.

Lemma retry_tables_with_attempt (cb : Callback) (n : Z) :
  is_poller (with_attempt cb n) = is_poller cb
  ∧ budget (with_attempt cb n) = budget cb
  ∧ (is_poller cb = true → attempt_of (with_attempt cb n) = n)
  ∧ (∀ k, interval (with_attempt cb n) k = interval cb k)
  ∧ (∀ k, timeout_line (with_attempt cb n) k = timeout_line cb k)
  ∧ (∀ t k m, poll_trace (with_attempt cb n) t k m = poll_trace cb t k m).
Proof.
  repeat split; try by destruct cb.
  intros t k m. revert t k. induction m as [| m IH]; intros t k; cbn; [done |].
  rewrite IH. by destruct cb.
Qed.

(** One turn of the loop when the only pending timer is a poller that finds
    nothing. *)
Lemma step_no_match (desk : Z → Desktop) (cb : Callback) (t : Z) (a : App) :
  is_poller cb = true →
  timers a = [(t, cb)] →
  candidates (desk t) cb = [] →
  ∃ a', step P cfg desk a = Some a'
        ∧ polled a' = polled a ++ [(t, attempt_of cb + 1)]
        ∧ mover a' = mover a
        ∧ last_active a' = last_active a
        ∧ (if attempt_of cb + 1 <? budget cb
           then timers a' = [(t + interval cb (attempt_of cb + 1),
                              with_attempt cb (attempt_of cb + 1))]
                ∧ console a' = console a
           else timers a' = []
                ∧ console a' = console a ++ [timeout_line cb (attempt_of cb + 1)]).
Proof.
  intros Hp Ht Hc. unfold step. rewrite Ht. cbn. rewrite decide_True by done. cbn.
  eexists. split; [done |]. rewrite (fire_no_match _ _ _ Hp Hc). cbn.
  destruct (attempt_of cb + 1 <? budget cb); cbn; done.
Qed.

(** The loop to its end: [S n] polls are left in the budget. *)
Lemma run_no_match (desk : Z → Desktop) (n : nat) :
  ∀ (cb : Callback) (t : Z) (a : App) (fuel : nat),
    is_poller cb = true →
    timers a = [(t, cb)] →
    (∀ t', candidates (desk t') cb = []) →
    budget cb - attempt_of cb = Z.of_nat (S n) →
    (S n ≤ fuel)%nat →
    polled (run fuel P cfg desk a)
      = polled a ++ poll_trace cb t (attempt_of cb) (S n)
    ∧ console (run fuel P cfg desk a) = console a ++ [timeout_line cb (budget cb)]
    ∧ timers (run fuel P cfg desk a) = []
    ∧ mover (run fuel P cfg desk a) = mover a
    ∧ last_active (run fuel P cfg desk a) = last_active a.
Proof.
  induction n as [| n IH]; intros cb t a fuel Hp Ht Hc Hb Hf.
  - destruct fuel as [| fuel]; [lia |]. cbn [run].
    destruct (step_no_match desk cb t a Hp Ht (Hc t))
      as (a' & -> & Hpl & Hm & Hla & Hrest).
    assert ((attempt_of cb + 1 <? budget cb) = false) as Hge by (apply Z.ltb_ge; lia).
    rewrite Hge in Hrest. destruct Hrest as [Hts Hco].
    assert (∀ k, run k P cfg desk a' = a') as Hidle.
    { intros [| k]; [done |]. cbn. unfold step. by rewrite Hts. }
    rewrite Hidle. cbn. rewrite Hpl, Hco, Hts, Hm, Hla.
    replace (attempt_of cb + 1) with (budget cb) by lia. done.
  - destruct fuel as [| fuel]; [lia |]. cbn [run].
    destruct (step_no_match desk cb t a Hp Ht (Hc t))
      as (a' & -> & Hpl & Hm & Hla & Hrest).
    assert ((attempt_of cb + 1 <? budget cb) = true) as Hlt by (apply Z.ltb_lt; lia).
    rewrite Hlt in Hrest. destruct Hrest as [Hts Hco].
    destruct (retry_tables_with_attempt cb (attempt_of cb + 1))
      as (Hp' & Hb' & Ha' & Hi' & Hl' & Htr').
    specialize (Ha' Hp).
    destruct (IH (with_attempt cb (attempt_of cb + 1))
                (t + interval cb (attempt_of cb + 1)) a' fuel)
      as (Hpl2 & Hco2 & Hts2 & Hm2 & Hla2).
    + by rewrite Hp'.
    + done.
    + intros t'. by rewrite candidates_with_attempt.
    + rewrite Hb', Ha'. lia.
    + lia.
    + rewrite Hpl2, Hco2, Hts2, Hm2, Hla2, Hpl, Hco, Hm, Hla.
      rewrite Ha', Hb', Hl', Htr'. cbn [poll_trace].
      rewrite <- app_assoc. done.
Qed.

Lemma length_poll_trace (cb : Callback) (t k : Z) (n : nat) :
  length (poll_trace cb t k n) = n.
Proof. revert t k. induction n as [| n IH]; intros t k; cbn; [done | by rewrite IH]. Qed.

(** C2, as the code has it. A retry loop whose polls never find a window
    polls exactly as often as its budget says, at the waits [interval] gives,
    then logs its timeout and arms nothing more: with more turns of the event
    loop nothing changes, and no platform call was issued. The budgets and
    waits are those of [budget] and [interval]: 20 polls 600 ms apart for a
    console by process id (500 ms for another executable), 18 polls 600 ms
    apart for the MMC snapshot loop, 20 polls 500 ms apart for the browser
    snapshot closure, 25 polls for PowerShell and RDSH, 800 ms apart up to the
    ninth and then 1200 ms (PowerShell) or 1000 ms (RDSH). *)
Theorem retry_loop_exhausts_budget (desk : Z → Desktop) (cb : Callback) (t : Z) (a : App) :
  is_poller cb = true →
  attempt_of cb = 0 →
  timers a = [(t, cb)] →
  (∀ t', candidates (desk t') cb = []) →
  ∀ fuel, (Z.to_nat (budget cb) ≤ fuel)%nat →
    polled (run fuel P cfg desk a)
      = polled a ++ poll_trace cb t 0 (Z.to_nat (budget cb))
    ∧ length (poll_trace cb t 0 (Z.to_nat (budget cb))) = Z.to_nat (budget cb)
    ∧ console (run fuel P cfg desk a) = console a ++ [timeout_line cb (budget cb)]
    ∧ timers (run fuel P cfg desk a) = []
    ∧ mover (run fuel P cfg desk a) = mover a.
Proof.
  intros Hp Ha Ht Hc fuel Hf.
  assert (∃ n, Z.to_nat (budget cb) = S n ∧ budget cb = Z.of_nat (S n)) as (n & Hn & Hb).
  { destruct cb; try discriminate; cbn; eexists; split; reflexivity. }
  rewrite Hn in *.
  destruct (run_no_match desk n cb t a fuel Hp Ht Hc) as (Hpl & Hco & Hts & Hm & _);
    [lia | lia |].
  rewrite Ha in Hpl. rewrite length_poll_trace. done.
Qed.

End SchedulerFacts.

(** The scenario of the specification on the console loop: nothing ever
    matches process 4321; the loop polls 20 times, 600 ms apart, from 1200 ms
    on, and times out. *)
Lemma retry_loop_exhausts_budget_witness :
  let final :=
    run 50 obliging default_config (λ _, empty_desktop)
      (_schedule_window_placement_by_pid 4321 "TL" "cmd" initial_app) in
  length (polled final) = 20%nat
  ∧ head (polled final) = Some (1200, 1)
  ∧ gaps (polled final) = replicate 19 600
  ∧ console final = [PlacementTimeout "Window" "cmd" 20]
  ∧ timers final = [].
Proof.
  intros final.
  destruct (retry_loop_exhausts_budget obliging default_config (λ _, empty_desktop)
              (place_by_pid 4321 "TL" "cmd" 0) 1200
              (_schedule_window_placement_by_pid 4321 "TL" "cmd" initial_app)
              eq_refl eq_refl eq_refl (λ _, eq_refl) 50 ltac:(compute_done))
    as (Hpolled & Hlen & Hconsole & Htimers & _).
  fold final in Hpolled, Hconsole, Htimers.
  rewrite Hpolled, Hconsole, Htimers. by repeat split.
Defined.

(** C2 as stated fails for the MMC snapshot loop: when no MMC window ever
    appears it polls 18 times, 600 ms apart, and then times out; not 20 times
    at 500 ms. *)
Lemma mmc_loop_polls_18_times :
  let final :=
    run 100 obliging default_config (λ _, empty_desktop)
      (_launch_mmc_with_snapshot empty_desktop started "Event Viewer" "TL" false
         initial_app) in
  length (polled final) = 18%nat
  ∧ length (polled final) ≠ 20%nat
  ∧ head (polled final) = Some (1200, 1)
  ∧ gaps (polled final) = replicate 17 600
  ∧ console final = [Started "MMC" "TL"; PlacementTimeout "MMC" "Event Viewer" 18]
  ∧ timers final = [].
Proof. vm_compute. by repeat split. Qed.

(** C3, the code at a launch the claim covers. Chrome is started with the
    snapshot strategy on a desktop without browser windows, and its window
    appears a second later. [_launch_browser_with_snapshot] logs the start and
    arms no timer, so the event loop has nothing to run: no poll is made, no
    positioning call is issued and the window is never placed. The closure
    itself, armed by hand, finds the new window on its first poll and moves it
    to the TL rectangle; and the MMC launcher, built the same way, does arm
    its closure. *)
Theorem browser_launch_arms_no_poll :
  let launched :=
    _launch_browser_with_snapshot empty_desktop started "chrome.exe" "Chrome" "TL" false
      initial_app in
  let final := run 100 obliging default_config (appears_after 1000 chrome) launched in
  let armed :=
    run 100 obliging default_config (appears_after 1000 chrome)
      (singleShot 1200 (browser_place_by_snapshot [] "chrome.exe" "TL" "Chrome" 0) launched) in
  console launched = [Started "Browser" "TL"]
  ∧ timers launched = []
  ∧ final = launched
  ∧ polled final = []
  ∧ issued (mover final) = []
  ∧ polled armed = [(1200, 1)]
  ∧ issued (mover armed)
    = [user32_SetWindowPos 51 0 12 11 945 527 _SWP_FLAGS;
       user32_SetWindowPos 51 0 12 11 945 527 _SWP_FLAGS]
  ∧ console armed
    = [Started "Browser" "TL"; Placed "Browser" "Chrome" "TL" 51; LastActiveUpdated 51 None]
  ∧ timers
      (_launch_mmc_with_snapshot empty_desktop started "Event Viewer" "TL" false initial_app)
    = [(1200, mmc_place_by_snapshot [] "TL" "Event Viewer" 0)].
Proof. vm_compute. by repeat split. Qed.

(** Whatever the launch: a started browser leaves the pending timers as
    they were, so no poll of its own follows. *)
Lemma schedule_browser_arms_nothing (d : Desktop) (start : StartResult)
    (exe_name label quad : string) (uac : bool) (a : App) :
  timers (_launch_browser_with_snapshot d start exe_name label quad uac a) = timers a
  ∧ polled (_launch_browser_with_snapshot d start exe_name label quad uac a) = polled a
  ∧ mover (_launch_browser_with_snapshot d start exe_name label quad uac a) = mover a.
Proof. unfold _launch_browser_with_snapshot. by destruct (ok start). Qed.

(** The loops of PowerShell and RDSH launches on a desktop that never shows
    a window: 25 polls each, 800 ms apart up to the ninth and then 1200 ms
    (PowerShell) or 1000 ms (RDSH) apart. *)
Lemma powershell_and_rds_loops :
  let ps :=
    run 100 obliging default_config (λ _, empty_desktop)
      (_schedule_powershell_placement (Some 4321) "TL" "Deploy" "Deploy" initial_app) in
  let rds :=
    run 100 obliging default_config (λ _, empty_desktop)
      (_schedule_rds_window_placement 4321 "TL" "Console" "pid" [] [] 1 initial_app) in
  length (polled ps) = 25%nat
  ∧ head (polled ps) = Some (1000, 1)
  ∧ gaps (polled ps) = replicate 9 800 ++ replicate 15 1200
  ∧ console ps = [PlacementTimeout "PowerShell" "Deploy" 25]
  ∧ length (polled rds) = 25%nat
  ∧ head (polled rds) = Some (1500, 1)
  ∧ gaps (polled rds) = replicate 9 800 ++ replicate 15 1000
  ∧ console rds = [PlacementTimeout "RDSH Window" "Console" 25].
Proof. vm_compute. by repeat split. Qed.

(** The direct-match scenario of the specification. A console is launched
    with process id 4321; the polls at 1200 ms and 1800 ms see only a window of
    another process; the poll at 2400 ms finds the console window, the primary
    call moves it to the TL rectangle, the placement is logged and remembered
    as the last active window, and the move is repeated 300 ms later. *)
Theorem console_found_on_third_poll :
  let final :=
    run 100 obliging default_config console_appears
      (_schedule_window_placement_by_pid 4321 "TL" "cmd" initial_app) in
  polled final = [(1200, 1); (1800, 2); (2400, 3)]
  ∧ console final = [Placed "Window" "cmd" "TL" 71; LastActiveUpdated 71 (Some 4321)]
  ∧ last_active final = Some (71, Some 4321)
  ∧ issued (mover final)
    = [user32_SetWindowPos 71 0 12 11 945 527 _SWP_FLAGS;
       user32_SetWindowPos 71 0 12 11 945 527 _SWP_FLAGS]
  ∧ now final = 2700
  ∧ timers final = [].
Proof. vm_compute. by repeat split. Qed.

(** ** The window a poll hands to placement *)

Section PlacementFacts.

Variable P : Platform.
Variable cfg : Config.

Lemma acts_on_refl (target : Z) (s : Mover.State) : acts_on target s s.
Proof. split; [done |]. exists []. by rewrite app_nil_r. Qed.

Lemma acts_on_trans (target : Z) (s1 s2 s3 : Mover.State) :
  acts_on target s1 s2 → acts_on target s2 s3 → acts_on target s1 s3.
Proof.
  intros (Hu1 & c1 & Hi1 & Hc1) (Hu2 & c2 & Hi2 & Hc2). split; [congruence |].
  exists (c1 ++ c2). split; [by rewrite Hi2, Hi1, app_assoc |]. by apply Forall_app.
Qed.

Lemma issue_acts_on (target : Z) (c : PlatformCall) (s : Mover.State) :
  call_hwnd c = target → acts_on target s (issue P c s).2.
Proof. intros Hc. split; [done |]. exists [c]. split; [done |]. by constructor. Qed.

Lemma try_calls_acts_on (target : Z) (cs : list PlatformCall) (s : Mover.State) :
  Forall (λ c, call_hwnd c = target) cs → acts_on target s (try_calls P cs s).2.
Proof.
  intros Hcs. revert s. induction Hcs as [| c cs Hc _ IH]; intros s; cbn [try_calls].
  - apply acts_on_refl.
  - pose proof (issue_acts_on target c s Hc) as Hi.
    destruct (issue P c s) as [[| err] s1]; cbn [snd] in *; [| done].
    by eapply acts_on_trans.
Qed.

Lemma first_success_acts_on (target : Z) (methods : list (list PlatformCall))
    (s : Mover.State) :
  Forall (Forall (λ c, call_hwnd c = target)) methods →
  acts_on target s (first_success P methods s).2.
Proof.
  intros Hms. revert s. induction Hms as [| m ms Hm _ IH]; intros s; cbn [first_success].
  - apply acts_on_refl.
  - pose proof (try_calls_acts_on target m s Hm) as Ht.
    destruct (try_calls P m s) as [[] s1]; cbn [snd] in *; [done |].
    by eapply acts_on_trans.
Qed.

Lemma notes_only_refl (a : App) : notes_only a a.
Proof. exists []. by rewrite app_nil_r. Qed.

Lemma notes_only_trans (a1 a2 a3 : App) :
  notes_only a1 a2 → notes_only a2 a3 → notes_only a1 a3.
Proof.
  intros (n1 & Hc1 & Hn1) (n2 & Hc2 & Hn2). exists (n1 ++ n2).
  split; [by rewrite Hc2, Hc1, app_assoc |]. by apply Forall_app.
Qed.

Lemma notes_only_log (l : LogLine) (a : App) :
  outcome_hwnd l = None → notes_only a (log l a).
Proof. intros Hl. exists [l]. split; [done |]. by constructor. Qed.

Lemma notes_only_log_all (ls : list LogLine) (a : App) :
  Forall (λ l, outcome_hwnd l = None) ls → notes_only a (log_all ls a).
Proof.
  intros Hls. revert a. induction Hls as [| l ls Hl _ IH]; intros a.
  - apply notes_only_refl.
  - change (log_all (l :: ls) a) with (log_all ls (log l a)).
    eapply notes_only_trans; [by apply notes_only_log | apply IH].
Qed.

Lemma mover_log_all (ls : list LogLine) (a : App) : mover (log_all ls a) = mover a.
Proof.
  revert a. induction ls as [| l ls IH]; intros a; [done |].
  change (log_all (l :: ls) a) with (log_all ls (log l a)). by rewrite IH.
Qed.

(** The helpers of the pollers, each on its own handle. *)

Lemma app_move_window_effect (d : Desktop) (target x y w h : Z) (a : App) :
  (app_move_window P d target x y w h a).1 = (move_window P d (mover a) target x y w h).1
  ∧ mover (app_move_window P d target x y w h a).2
    = (move_window P d (mover a) target x y w h).2
  ∧ console (app_move_window P d target x y w h a).2 = console a.
Proof. unfold app_move_window. by destruct (move_window P d (mover a) target x y w h). Qed.

Lemma _place_console_window_effect (d : Desktop) (target x y w h : Z) (a : App) :
  acts_on target (move_window P d (mover a) target x y w h).2
    (mover (_place_console_window P d target x y w h a).2)
  ∧ console (_place_console_window P d target x y w h a).2 = console a
  ∧ ((move_window P d (mover a) target x y w h).1 = true →
     (_place_console_window P d target x y w h a).1 = true).
Proof.
  unfold _place_console_window.
  destruct (move_window P d (mover a) target x y w h) as [[] s]; cbn [fst snd].
  - split; [apply acts_on_refl | done].
  - match goal with |- context [first_success P ?ms s] =>
      pose proof (first_success_acts_on target ms s) as Hf;
      destruct (first_success P ms s) as [b s']
    end.
    cbn [fst snd mover with_mover console] in *. split; [| done].
    apply Hf. repeat constructor.
Qed.

Lemma _place_rds_window_effect (d : Desktop) (target x y w h : Z) (a : App) :
  acts_on target (move_window P d (mover a) target x y w h).2
    (mover (_place_rds_window P d target x y w h a).2)
  ∧ console (_place_rds_window P d target x y w h a).2 = console a
  ∧ ((move_window P d (mover a) target x y w h).1 = true →
     (_place_rds_window P d target x y w h a).1 = true).
Proof.
  unfold _place_rds_window.
  destruct (move_window P d (mover a) target x y w h) as [[] s]; cbn [fst snd].
  - split; [apply acts_on_refl | done].
  - match goal with |- context [first_success P ?ms s] =>
      pose proof (first_success_acts_on target ms s) as Hf;
      destruct (first_success P ms s) as [b s']
    end.
    cbn [fst snd mover with_mover console] in *. split; [| done].
    apply Hf. repeat constructor.
Qed.

Lemma _try_alternative_window_move_effect (target x y w h : Z) (a : App) :
  acts_on target (mover a) (mover (_try_alternative_window_move P target x y w h a).2)
  ∧ notes_only a (_try_alternative_window_move P target x y w h a).2.
Proof.
  unfold _try_alternative_window_move.
  match goal with |- context [try_calls P ?cs (mover a)] =>
    pose proof (try_calls_acts_on target cs (mover a)) as H1;
    destruct (try_calls P cs (mover a)) as [[] s1]
  end; cbn [fst snd] in *.
  { split; [apply H1; repeat constructor | by apply (notes_only_log _ (with_mover s1 a))]. }
  match goal with |- context [try_calls P ?cs s1] =>
    pose proof (try_calls_acts_on target cs s1) as H2;
    destruct (try_calls P cs s1) as [[] s2]
  end; cbn [fst snd] in *.
  { split; [| by apply (notes_only_log _ (with_mover s2 a))].
    eapply acts_on_trans; [apply H1 | apply H2]; repeat constructor. }
  match goal with |- context [try_calls P ?cs s2] =>
    pose proof (try_calls_acts_on target cs s2) as H3;
    destruct (try_calls P cs s2) as [[] s3]
  end; cbn [fst snd] in *.
  all: split; [| by apply (notes_only_log _ (with_mover s3 a))].
  all: eapply acts_on_trans; [eapply acts_on_trans; [apply H1 | apply H2] | apply H3].
  all: repeat constructor.
Qed.

Lemma _try_powershell_alternative_placement_effect (target x y w h : Z) (a : App) :
  acts_on target (mover a)
    (mover (_try_powershell_alternative_placement P target x y w h a).2)
  ∧ notes_only a (_try_powershell_alternative_placement P target x y w h a).2.
Proof.
  unfold _try_powershell_alternative_placement.
  match goal with |- context [issue P ?c (mover a)] =>
    pose proof (issue_acts_on target c (mover a) eq_refl) as H1;
    destruct (issue P c (mover a)) as [r1 s1]
  end.
  match goal with |- context [issue P ?c s1] =>
    pose proof (issue_acts_on target c s1 eq_refl) as H2;
    destruct (issue P c s1) as [r2 s2]
  end.
  match goal with |- context [issue P ?c s2] =>
    pose proof (issue_acts_on target c s2 eq_refl) as H3;
    destruct (issue P c s2) as [r3 s3]
  end.
  cbn [fst snd] in *. split.
  - rewrite mover_log_all. cbn [mover with_mover].
    eapply acts_on_trans; [eapply acts_on_trans |]; eassumption.
  - match goal with |- notes_only _ (log_all ?ls ?b) =>
      apply (notes_only_log_all ls (with_mover s3 a))
    end.
    repeat (apply Forall_app; split); destruct r1, r2, r3; repeat constructor.
Qed.

Lemma _update_last_active_window_quiet (d : Desktop) (hwnd : Z) (pid : option Z) (a : App) :
  mover (_update_last_active_window d hwnd pid a) = mover a
  ∧ notes_only a (_update_last_active_window d hwnd pid a).
Proof.
  unfold _update_last_active_window.
  case_bool_decide; [| split; [done | apply notes_only_refl]].
  destruct (IsWindow d hwnd) as [[] |]; try (split; [done | apply notes_only_refl]).
  split; [done |]. exists [LastActiveUpdated hwnd pid]. split; [done |]. by repeat constructor.
Qed.

(** Putting a poll together: the ladder up to [a1], the outcome line [l],
    and what follows it. *)
Lemma places_intro (d : Desktop) (target x y w h : Z) (a a1 a' : App) (l : LogLine) :
  acts_on target (move_window P d (mover a) target x y w h).2 (mover a1) →
  notes_only a a1 →
  outcome_hwnd l = Some target →
  ((move_window P d (mover a) target x y w h).1 = true → is_placed l = true) →
  acts_on target (mover a1) (mover a') →
  notes_only (log l a1) a' →
  places P d target (x, y, w, h) a a'.
Proof.
  intros Hact (notes & Hcon & Hnotes) Hl Hpl Hact' (notes' & Hcon' & Hnotes').
  split; [by eapply acts_on_trans |].
  exists notes, l, notes'. split_and!; try done.
  rewrite Hcon'. cbn. rewrite Hcon, <- !app_assoc. done.
Qed.

Lemma placed_tail_quiet (d : Desktop) (target : Z) (pid : option Z) (ms : Z)
    (again : Callback) (l : LogLine) (a1 : App) :
  let a' := singleShot ms again (_update_last_active_window d target pid (log l a1)) in
  acts_on target (mover a1) (mover a') ∧ notes_only (log l a1) a'.
Proof.
  destruct (_update_last_active_window_quiet d target pid (log l a1)) as [Hm Hn].
  cbn. rewrite Hm. split; [apply acts_on_refl | exact Hn].
Qed.

Lemma notes_only_same (a a1 : App) : console a1 = console a → notes_only a a1.
Proof. intros Hc. exists []. by rewrite app_nil_r. Qed.

Ltac ladder lemma :=
  let Hact := fresh "Hact" in
  let Hcon := fresh "Hcon" in
  let Hok := fresh "Hok" in
  pose proof lemma as (Hact & Hcon & Hok);
  match type of Hcon with
  | console (?c).2 = _ => destruct c as [[] ?]; cbn [fst snd] in Hact, Hcon, Hok
  end.

(** The two ways a poll ends: [Placed], the last active window and the
    timer; or [PlacementFailed]. Four goals are left: the ladder, its notes,
    and, for a failure, that [move_window] had not succeeded. *)
Ltac placed_branch :=
  match goal with
  | |- places _ ?d ?target (?x, ?y, ?w, ?h) ?a
         (singleShot _ _ (_update_last_active_window _ _ _ (log ?l ?a1))) =>
      eapply (places_intro d target x y w h a a1 _ l);
      [ | | done | done | apply placed_tail_quiet | apply placed_tail_quiet]
  end.

Ltac failed_branch :=
  match goal with
  | |- places _ ?d ?target (?x, ?y, ?w, ?h) ?a (log ?l ?a1) =>
      eapply (places_intro d target x y w h a a1 _ l);
      [ | | done | | apply acts_on_refl | apply notes_only_refl]
  end.

(** The five pollers: a poll whose candidates have [target] as their
    largest, and whose quadrant is [rect], places [target] at [rect]. *)
Lemma fire_places (d : Desktop) (cb : Callback) (a : App) (target x y w h : Z) :
  is_poller cb = true →
  Py.max_key (get_window_area d) (candidates d cb) = Some target →
  get_quadrant_for_config d (quad_of cb) cfg = Some (x, y, w, h) →
  places P d target (x, y, w, h) a (fire P cfg d cb a).
Proof.
  intros Hp Hmax Hq.
  destruct cb; try discriminate; cbn [fire candidates quad_of] in *.
  - unfold run_place_by_pid. rewrite Hmax, Hq.
    set (a0 := record_poll (attempt + 1) a).
    destruct (is_console_label label).
    + ladder (_place_console_window_effect d target x y w h a0).
      * placed_branch; [exact Hact | by apply notes_only_same].
      * failed_branch; [exact Hact | by apply notes_only_same | by intros ?%Hok].
    + pose proof (app_move_window_effect d target x y w h a0) as (Hok & Hm & Hcon).
    change (mover a0) with (mover a) in Hok, Hm.
      destruct (app_move_window P d target x y w h a0) as [[] a1]; cbn [fst snd] in *.
      * placed_branch; [rewrite Hm; apply acts_on_refl | by apply notes_only_same].
      * failed_branch; [rewrite Hm; apply acts_on_refl | by apply notes_only_same
                       | by intros Ht; rewrite Ht in Hok].
  - unfold run_browser_place_by_snapshot. rewrite Hmax, Hq.
    set (a0 := record_poll (attempt + 1) a).
    pose proof (app_move_window_effect d target x y w h a0) as (Hok & Hm & Hcon).
    change (mover a0) with (mover a) in Hok, Hm.
    destruct (app_move_window P d target x y w h a0) as [[] a1]; cbn [fst snd] in *.
    + placed_branch; [rewrite Hm; apply acts_on_refl | by apply notes_only_same].
    + failed_branch; [rewrite Hm; apply acts_on_refl | by apply notes_only_same
                     | by intros Ht; rewrite Ht in Hok].
  - unfold run_mmc_place_by_snapshot. rewrite Hmax, Hq.
    set (a0 := log (Note "MMC trying to place") (record_poll (attempt + 1) a)).
    assert (notes_only a a0) as Hn0.
    { eapply notes_only_trans; [| by apply notes_only_log].
      by apply notes_only_same. }
    pose proof (app_move_window_effect d target x y w h a0) as (Hok & Hm & Hcon).
    change (mover a0) with (mover a) in Hok, Hm.
    destruct (app_move_window P d target x y w h a0) as [[] a1]; cbn [fst snd] in *.
    + placed_branch; [rewrite Hm; apply acts_on_refl |].
      eapply notes_only_trans; [exact Hn0 | by apply notes_only_same].
    + set (a2 := log (Note "Standard move failed, trying alternative WinAPI flags...") a1).
      assert (notes_only a a2) as Hn2.
      { eapply notes_only_trans; [exact Hn0 |].
        eapply notes_only_trans; [by apply notes_only_same | by apply notes_only_log]. }
      pose proof (_try_alternative_window_move_effect target x y w h a2) as (Hact & Hnotes).
      destruct (_try_alternative_window_move P target x y w h a2) as [[] a3];
        cbn [fst snd] in *.
      * placed_branch; [rewrite <- Hm; exact Hact | by eapply notes_only_trans].
      * destruct (GetWindowRect d target).
        -- eapply (places_intro d target x y w h a a3 _ (PlacementFailed "MMC" label target));
             [rewrite <- Hm; exact Hact | by eapply notes_only_trans | done
             | by intros Ht; rewrite Ht in Hok
             | apply acts_on_refl | by apply notes_only_log].
        -- failed_branch; [rewrite <- Hm; exact Hact | by eapply notes_only_trans
                          | by intros Ht; rewrite Ht in Hok].
  - unfold run_place_powershell. rewrite Hmax, Hq.
    set (a0 := record_poll (attempt + 1) a).
    set (a1 := match GetWindowText d target, GetClassName d target with
               | Some _, Some _ => log (Note "PowerShell window found") a0
               | _, _ => a0
               end).
    assert (mover a1 = mover a ∧ notes_only a a1) as [Hm1 Hn1].
    { subst a1. destruct (GetWindowText d target), (GetClassName d target);
        (split; [done |]); try (by apply notes_only_same).
      eapply notes_only_trans; [| by apply notes_only_log]. by apply notes_only_same. }
    ladder (_place_console_window_effect d target x y w h a1).
    + rewrite Hm1 in Hact. placed_branch; [exact Hact |].
      eapply notes_only_trans; [exact Hn1 | by apply notes_only_same].
    + rewrite Hm1 in Hact, Hok.
      match goal with
      | |- context [_try_powershell_alternative_placement P target x y w h (log ?l ?b)] =>
          pose proof (_try_powershell_alternative_placement_effect target x y w h (log l b))
            as (Hact' & Hnotes');
          eapply (places_intro d target x y w h a b _ l);
            [exact Hact
            | eapply notes_only_trans; [exact Hn1 | by apply notes_only_same]
            | done | by intros ?%Hok | exact Hact' | exact Hnotes']
      end.
  - unfold run_place_rds_window. rewrite Hmax, Hq.
    set (a0 := record_poll (attempt + 1) a).
    ladder (_place_rds_window_effect d target x y w h a0).
    + placed_branch; [exact Hact | by apply notes_only_same].
    + failed_branch; [exact Hact | by apply notes_only_same | by intros ?%Hok].
Qed.

(** A poll whose quadrant cannot be computed ends where the exception is
    raised, after the candidates were looked up. *)
Lemma fire_no_geometry (d : Desktop) (cb : Callback) (a : App) (target : Z) :
  is_poller cb = true →
  Py.max_key (get_window_area d) (candidates d cb) = Some target →
  get_quadrant_for_config d (quad_of cb) cfg = None →
  fire P cfg d cb a = record_poll (attempt_of cb + 1) a.
Proof.
  intros Hp Hmax Hq.
  destruct cb; try discriminate; cbn [fire candidates quad_of attempt_of] in *.
  - unfold run_place_by_pid. by rewrite Hmax, Hq.
  - unfold run_browser_place_by_snapshot. by rewrite Hmax, Hq.
  - unfold run_mmc_place_by_snapshot. by rewrite Hmax, Hq.
  - unfold run_place_powershell. by rewrite Hmax, Hq.
  - unfold run_place_rds_window. by rewrite Hmax, Hq.
Qed.

(** The ladders read nothing of the window object but the mover's state. *)
Lemma _place_console_window_mover (d : Desktop) (target x y w h : Z) (a0 a : App) :
  mover a0 = mover a →
  (_place_console_window P d target x y w h a0).1
  = (_place_console_window P d target x y w h a).1
  ∧ mover (_place_console_window P d target x y w h a0).2
    = mover (_place_console_window P d target x y w h a).2.
Proof.
  intros Hm. unfold _place_console_window. rewrite Hm.
  destruct (move_window P d (mover a) target x y w h) as [[] s]; [done |].
  by destruct (first_success P _ s).
Qed.

Lemma placed_tail_mover (d : Desktop) (target : Z) (pid : option Z) (ms : Z)
    (again : Callback) (l : LogLine) (a1 : App) :
  mover (singleShot ms again (_update_last_active_window d target pid (log l a1)))
  = mover a1.
Proof.
  destruct (_update_last_active_window_quiet d target pid (log l a1)) as [Hm _].
  cbn. by rewrite Hm.
Qed.

(** C5. When a poll has candidates, the window it hands to placement is
    the one [max(windows, key=get_window_area)] selects: a candidate whose
    area no other candidate exceeds. This holds for each of the five pollers:
    [move_window] is called on that window with the quadrant rectangle, every
    further call goes to that window, and the one outcome line logged names
    it; when the quadrant cannot be computed the poll ends with nothing done.
    For the poller by process id, the positioning is exactly that of
    [_place_console_window] (console labels) or [move_window] on that window.
    The area of a window is [max(0, r - l) * max(0, b - t)] of its rectangle,
    never negative, and 0 when the rectangle cannot be read. *)
Theorem largest_area_selected (d : Desktop) (a : App) :
  (∀ cb, is_poller cb = true → candidates d cb ≠ [] →
     ∃ target,
       Py.max_key (get_window_area d) (candidates d cb) = Some target
       ∧ target ∈ candidates d cb
       ∧ (∀ hwnd, hwnd ∈ candidates d cb →
            get_window_area d hwnd ≤ get_window_area d target)
       ∧ match get_quadrant_for_config d (quad_of cb) cfg with
         | Some rect => places P d target rect a (fire P cfg d cb a)
         | None => fire P cfg d cb a = record_poll (attempt_of cb + 1) a
         end)
  ∧ (∀ pid quad label attempt x y w h,
       by_pid_windows d pid label ≠ [] →
       get_quadrant_for_config d quad cfg = Some (x, y, w, h) →
       ∃ target,
         target ∈ by_pid_windows d pid label
         ∧ (∀ hwnd, hwnd ∈ by_pid_windows d pid label →
              get_window_area d hwnd ≤ get_window_area d target)
         ∧ mover (run_place_by_pid P cfg d pid quad label attempt a)
           = mover (if is_console_label label
                    then _place_console_window P d target x y w h a
                    else app_move_window P d target x y w h a).2)
  ∧ ∀ hwnd,
      0 ≤ get_window_area d hwnd
      ∧ (GetWindowRect d hwnd = None → get_window_area d hwnd = 0)
      ∧ ∀ l t r b, GetWindowRect d hwnd = Some (l, t, r, b) →
          get_window_area d hwnd = Z.max 0 (r - l) * Z.max 0 (b - t).
Proof.
  split_and!.
  - intros cb Hp Hc.
    destruct (max_key_spec (get_window_area d) _ Hc) as (target & Hmax & Hin & Hlargest).
    exists target. split_and!; try done.
    destruct (get_quadrant_for_config d (quad_of cb) cfg) as [[[[x y] w] h] |] eqn:Hq.
    + by apply fire_places.
    + by apply (fire_no_geometry d cb a target).
  - intros pid quad label attempt x y w h Hc Hq.
    destruct (max_key_spec (get_window_area d) _ Hc) as (target & Hmax & Hin & Hlargest).
    exists target. split_and!; try done.
    unfold run_place_by_pid. rewrite Hmax, Hq.
    set (a0 := record_poll (attempt + 1) a).
    destruct (is_console_label label).
    + destruct (_place_console_window_mover d target x y w h a0 a eq_refl) as [_ <-].
      destruct (_place_console_window P d target x y w h a0) as [[] a1]; cbn [snd].
      * apply placed_tail_mover.
      * done.
    + destruct (app_move_window_effect d target x y w h a0) as (_ & Hm0 & _).
      destruct (app_move_window_effect d target x y w h a) as (_ & Hm & _).
      change (mover a0) with (mover a) in Hm0. rewrite Hm, <- Hm0.
      destruct (app_move_window P d target x y w h a0) as [[] a1]; cbn [snd].
      * apply placed_tail_mover.
      * done.
  - apply get_window_area_spec.
Qed.

Lemma browser_windows_NoDup (d : Desktop) (exe_name : string) :
  NoDup (EnumWindows d) → NoDup (browser_windows d exe_name).
Proof.
  unfold browser_windows, find_windows_by_criteria. rewrite !NoDup_ListNoDup.
  apply List.NoDup_filter.
Qed.

Lemma mmc_windows_NoDup (d : Desktop) : NoDup (EnumWindows d) → NoDup (mmc_windows d).
Proof.
  unfold mmc_windows, find_windows_by_criteria. rewrite !NoDup_ListNoDup.
  apply List.NoDup_filter.
Qed.

(** C4. The two snapshot pollers, whatever the snapshot [S] taken before
    the launch holds: when the windows the poll enumerates are those of [S]
    and one handle [h_new] that is not in [S], the candidates the poll
    computes, [[h for h in current_windows if h not in before_windows]], are
    exactly [h_new] (the list [[h_new]] when the enumeration lists no handle
    twice), and it is [h_new] that the poll places: [move_window] is called on
    it with the quadrant rectangle, every further call goes to it, and the one
    outcome line names it. For the browser poller the positioning is exactly
    that [move_window] call. *)
Theorem snapshot_diff_selects_new (d : Desktop) (S : list Z) (h_new : Z)
    (quad label : string) (attempt : Z) (a : App) (x y w h : Z) :
  h_new ∉ S →
  get_quadrant_for_config d quad cfg = Some (x, y, w, h) →
  (∀ exe_name,
     (∀ hwnd, hwnd ∈ browser_windows d exe_name ↔ hwnd ∈ S ∨ hwnd = h_new) →
     (∀ hwnd, hwnd ∈ new_windows S (browser_windows d exe_name) ↔ hwnd = h_new)
     ∧ (NoDup (EnumWindows d) → new_windows S (browser_windows d exe_name) = [h_new])
     ∧ places P d h_new (x, y, w, h) a
         (run_browser_place_by_snapshot P cfg d S exe_name quad label attempt a)
     ∧ mover (run_browser_place_by_snapshot P cfg d S exe_name quad label attempt a)
       = (move_window P d (mover a) h_new x y w h).2)
  ∧ ((∀ hwnd, hwnd ∈ mmc_windows d ↔ hwnd ∈ S ∨ hwnd = h_new) →
     (∀ hwnd, hwnd ∈ new_windows S (mmc_windows d) ↔ hwnd = h_new)
     ∧ (NoDup (EnumWindows d) → new_windows S (mmc_windows d) = [h_new])
     ∧ places P d h_new (x, y, w, h) a
         (run_mmc_place_by_snapshot P cfg d S quad label attempt a)).
Proof.
  intros Hnew Hq. split.
  - intros exe_name Hcur.
    destruct (new_windows_only_new S (browser_windows d exe_name) h_new Hnew Hcur)
      as (Hset & Hlist & Hmax).
    split_and!.
    + exact Hset.
    + intros Hnd. by apply Hlist, browser_windows_NoDup.
    + by apply (fire_places d (browser_place_by_snapshot S exe_name quad label attempt)
                  a h_new x y w h).
    + unfold run_browser_place_by_snapshot. rewrite (Hmax d), Hq.
      destruct (app_move_window_effect d h_new x y w h (record_poll (attempt + 1) a))
        as (_ & Hm & _).
      change (mover (record_poll (attempt + 1) a)) with (mover a) in Hm. rewrite <- Hm.
      destruct (app_move_window P d h_new x y w h (record_poll (attempt + 1) a))
        as [[] a1]; cbn [snd].
      * apply placed_tail_mover.
      * done.
  - intros Hcur.
    destruct (new_windows_only_new S (mmc_windows d) h_new Hnew Hcur)
      as (Hset & Hlist & Hmax).
    split_and!.
    + exact Hset.
    + intros Hnd. by apply Hlist, mmc_windows_NoDup.
    + by apply (fire_places d (mmc_place_by_snapshot S quad label attempt) a h_new x y w h).
Qed.

End PlacementFacts.

(** The host with two windows of process 77: the poll by process id moves
    the window of 120,000 square pixels, handle 32, to the TL rectangle. *)
Lemma largest_area_selected_witness :
  mover (run_place_by_pid obliging default_config (desktop_of [] [host_small; host_large])
           77 "TL" "host" 0 initial_app)
  = mover (app_move_window obliging (desktop_of [] [host_small; host_large])
             32 12 11 945 527 initial_app).2.
Proof.
  destruct (largest_area_selected obliging default_config
              (desktop_of [] [host_small; host_large]) initial_app) as (_ & Hpid & _).
  destruct (Hpid 77 "TL"%string "host"%string 0 12 11 945 527)
    as (target & Hin & Hmax & Heq); [discriminate | reflexivity |].
  change (by_pid_windows (desktop_of [] [host_small; host_large]) 77 "host")
    with [31; 32] in Hin, Hmax.
  assert (target = 32) as ->.
  { apply elem_of_cons in Hin as [-> | Hin]; [| by apply list_elem_of_singleton in Hin].
    assert (32 ∈ [31; 32]) as H32 by (right; left).
    specialize (Hmax 32 H32). vm_compute in Hmax. by destruct Hmax. }
  exact Heq.
Defined.

(** An MMC console (handle 62) was open before the launch; the tool's
    window (handle 61) is new: the MMC poll's candidates are [[61]], and 61 is
    placed. *)
Lemma snapshot_diff_selects_new_witness :
  new_windows [62] (mmc_windows (desktop_of [] [mmc_before; mmc_frame])) = [61]
  ∧ places obliging (desktop_of [] [mmc_before; mmc_frame]) 61 (12, 11, 945, 527)
      initial_app
      (run_mmc_place_by_snapshot obliging default_config
         (desktop_of [] [mmc_before; mmc_frame]) [62] "TL" "Event Viewer" 0 initial_app).
Proof.
  destruct (snapshot_diff_selects_new obliging default_config
              (desktop_of [] [mmc_before; mmc_frame]) [62] 61 "TL" "Event Viewer" 0
              initial_app 12 11 945 527) as [_ Hmmc].
  - rewrite elem_of_cons, elem_of_nil. intros [? | ?]; done.
  - reflexivity.
  - destruct Hmmc as (_ & Hlist & Hplaces).
    + intros hwnd. change (mmc_windows (desktop_of [] [mmc_before; mmc_frame])) with [62; 61].
      rewrite !elem_of_cons, elem_of_nil. tauto.
    + split; [| exact Hplaces]. apply Hlist.
      change (EnumWindows (desktop_of [] [mmc_before; mmc_frame])) with [62; 61].
      apply NoDup_cons. split.
      * rewrite elem_of_cons, elem_of_nil. intros [? | ?]; done.
      * apply NoDup_singleton.
Defined.

(** ** The matcher in terms of what the system reports *)

Section MatcherRaw.

Lemma check_toplevel_true (d : Desktop) (hwnd : Z) :
  check_toplevel d hwnd = Some true
  ↔ IsWindowVisible d hwnd = Some true ∧ GetParent d hwnd = Some 0.
Proof.
  unfold check_toplevel.
  destruct (IsWindowVisible d hwnd) as [[] |]; cbn;
    [| intuition congruence | intuition congruence].
  destruct (GetParent d hwnd) as [p |]; cbn; [| intuition congruence].
  split.
  - intros [= Hp%bool_decide_eq_true]. by subst.
  - intros [_ [= ->]]. done.
Qed.

Lemma check_class_true (c : Criteria) (d : Desktop) (hwnd : Z) :
  check_class c d hwnd = Some true
  ↔ class_names c = []
    ∨ ∃ cls, GetClassName d hwnd = Some cls ∧ (cls ∈ class_names c ∨ cls = APP_FRAME).
Proof.
  unfold check_class. destruct (class_names c) as [| n ns] eqn:Hn; [by split; [left |] |].
  rewrite <- Hn. destruct (GetClassName d hwnd) as [cls |]; cbn.
  - case_bool_decide as Hin.
    + split; [| done]. intros _. right. exists cls. by split; [| left].
    + split.
      * intros [= Hc%bool_decide_eq_true]. right. exists cls. by split; [| right].
      * intros [Hnil | (cls' & [= <-] & [? | ->])]; [congruence | done |].
        by rewrite bool_decide_eq_true_2.
  - split; [done |]. intros [Hnil | (cls' & ? & _)]; congruence.
Qed.

Lemma check_pid_true (c : Criteria) (d : Desktop) (hwnd : Z) :
  check_pid c d hwnd = Some true
  ↔ ∀ p, pid c = Some p → GetWindowThreadProcessId d hwnd = Some p.
Proof.
  unfold check_pid. destruct (pid c) as [p |]; [| by split].
  destruct (GetWindowThreadProcessId d hwnd) as [wp |]; cbn.
  - split.
    + intros [= Hp%bool_decide_eq_true] p' [= <-]. by subst.
    + intros Hp. specialize (Hp p eq_refl). injection Hp as ->.
      by rewrite bool_decide_eq_true_2.
  - split; [done |]. intros Hp. by specialize (Hp p eq_refl).
Qed.

Lemma check_session_true (c : Criteria) (d : Desktop) (hwnd : Z) :
  check_session c d hwnd = Some true
  ↔ ∀ sid, session_id c = Some sid →
      ∃ wp, GetWindowThreadProcessId d hwnd = Some wp
            ∧ _get_process_session_id d wp = sid.
Proof.
  unfold check_session. destruct (session_id c) as [sid |]; [| by split].
  destruct (GetWindowThreadProcessId d hwnd) as [wp |].
  - split.
    + intros [= Hs%bool_decide_eq_true] sid' [= <-]. by exists wp.
    + intros Hs. destruct (Hs sid eq_refl) as (wp' & [= <-] & Heq).
      by rewrite bool_decide_eq_true_2.
  - split; [done |]. intros Hs. by destruct (Hs sid eq_refl) as (? & ? & _).
Qed.

(** What a search by process, class and session returns, in terms of what
    the system reports about each window. With no title and no image name
    among the criteria, a handle is returned exactly when it was enumerated,
    is visible, has no parent, is at least 200 by 120 pixels, has a requested
    class or the class ApplicationFrameWindow (if class names were given),
    belongs to the requested process (if one was given) and to a process of
    the requested session (if one was given). A query that raises excludes
    the window. *)
Theorem matcher_by_process_class_session (c : Criteria) (d : Desktop) (hwnd : Z) :
  title_contains c = [] →
  image_names c = [] →
  hwnd ∈ find_windows_by_criteria c d
  ↔ hwnd ∈ EnumWindows d
    ∧ IsWindowVisible d hwnd = Some true
    ∧ GetParent d hwnd = Some 0
    ∧ (class_names c = []
       ∨ ∃ cls, GetClassName d hwnd = Some cls ∧ (cls ∈ class_names c ∨ cls = APP_FRAME))
    ∧ (∀ p, pid c = Some p → GetWindowThreadProcessId d hwnd = Some p)
    ∧ (∀ sid, session_id c = Some sid →
         ∃ wp, GetWindowThreadProcessId d hwnd = Some wp
               ∧ _get_process_session_id d wp = sid)
    ∧ ∃ l t r b, GetWindowRect d hwnd = Some (l, t, r, b) ∧ 200 ≤ r - l ∧ 120 ≤ b - t.
Proof.
  intros Htitle Himage.
  assert (check_title c d hwnd = Some true) as Ht.
  { unfold check_title, title_searches. by rewrite Htitle. }
  assert (check_image c d hwnd = Some true) as Hi.
  { unfold check_image. by rewrite Himage. }
  rewrite find_windows_checks, check_toplevel_true, check_class_true, check_pid_true,
    check_session_true, check_size_true, Ht, Hi.
  tauto.
Qed.

End MatcherRaw.

(** The search by process id 77 on the host's desktop: window 32 is
    returned, so the system reports process 77 for it. *)
Lemma matcher_by_process_class_session_witness :
  GetWindowThreadProcessId (desktop_of [] [host_small; host_large]) 32 = Some 77.
Proof.
  pose (c := {| pid := Some 77; class_names := []; title_contains := [];
                image_names := []; session_id := None |}).
  assert (32 ∈ find_windows_by_criteria c (desktop_of [] [host_small; host_large]))
    as Hin by (right; left).
  apply (matcher_by_process_class_session c _ 32 eq_refl eq_refl) in Hin
    as (_ & _ & _ & _ & Hpid & _).
  by apply Hpid.
Defined.
